(** * Building_agents: message model, tool schema converter, LLM client

    A shallow embedding of
      - module_01_Extending_Agents_with_Tools/lib/tooling.py  (class Tool)
      - module_01_Extending_Agents_with_Tools/lib/messages.py (message classes)
      - module_01_Extending_Agents_with_Tools/lib/llm.py      (class LLM)
    (module_02_Structured_Outputs/lib/messages.py declares the same
    message classes as module_01).

    Python objects are one inductive type [value]; a Python dict is an
    association list kept in insertion order; a raised exception is the
    [Raise] branch of [result]. *)

From Stdlib Require Import List String Ascii ZArith Bool Lia PrimFloat.
Import ListNotations.
Local Open Scope string_scope.
Local Open Scope list_scope.

Set Implicit Arguments.
Set Warnings "-register-all".

(** ** Python objects *)

(** The classes the code tells apart, and every other class by its name. *)
Inductive pyclass : Type :=
| CStr | CInt | CFloat | CBool | CDate | CDatetime
| CNoneType
| COther (qualname : string).

(** What [typing.get_origin] returns on a parameterised type.  The code
    compares it by identity with [Literal], [Union], [list] and [dict]. *)
Inductive origin : Type :=
| OLiteral | OUnion | OList | ODict
| OOther (qualname : string).

Inductive value : Type :=
| VNone
| VBool  (b : bool)
| VInt   (z : Z)
| VFloat (f : float)
| VStr   (s : string)
| VList  (xs : list value)
| VDict  (kvs : list (string * value))
| VClass (c : pyclass)
| VAlias (o : origin) (args : list value).

(** ** Exceptions *)

Inductive exn : Type :=
| IndexError                               (* tuple index out of range *)
| TypeError (msg : string)
| ValueError (msg : string)
| NameError (msg : string)
| AttributeError (msg : string)
| ValidationError (fields : list string).  (* pydantic, one entry per bad field *)

Inductive result (A : Type) : Type :=
| Ok (a : A)
| Raise (e : exn).
Arguments Ok {A} a.
Arguments Raise {A} e.

Definition bind {A B : Type} (r : result A) (k : A -> result B) : result B :=
  match r with
  | Ok a => k a
  | Raise e => Raise e
  end.

Notation "x <- r ;; k" := (bind r (fun x => k))
  (at level 61, r at next level, right associativity).

Definition is_ok {A : Type} (r : result A) : bool :=
  match r with Ok _ => true | Raise _ => false end.

(** ** Dicts: association lists in insertion order *)

Module PyDict.
Section Dict.
Variable V : Type.

Definition t := list (string * V).

Fixpoint get (k : string) (d : t) : option V :=
  match d with
  | [] => None
  | (k', v) :: rest => if String.eqb k k' then Some v else get k rest
  end.

(** [d[k] = v]: an existing key keeps its position, a new one goes last. *)
Fixpoint set (k : string) (v : V) (d : t) : t :=
  match d with
  | [] => [(k, v)]
  | (k', v') :: rest =>
      if String.eqb k k' then (k', v) :: rest else (k', v') :: set k v rest
  end.

Definition keys (d : t) : list string := List.map fst d.
Definition values (d : t) : list V := List.map snd d.
Definition len (d : t) : nat := List.length d.

(** [{key(x): val(x) for x in xs}] *)
Definition comprehension (A : Type) (key : A -> string) (val : A -> V)
           (xs : list A) : t :=
  fold_left (fun d x => set (key x) (val x) d) xs [].
End Dict.
End PyDict.

(** ** typing.get_origin, typing.get_args, hash *)

Definition get_origin (typ : value) : option origin :=
  match typ with
  | VAlias o _ => Some o
  | _ => None
  end.

Definition get_args (typ : value) : list value :=
  match typ with
  | VAlias _ args => args
  | _ => []
  end.

(** [get_origin] of a [Callable[[...], R]] alias. *)
Definition is_Callable (o : origin) : bool :=
  match o with
  | OOther qualname => String.eqb qualname "collections.abc.Callable"
  | _ => false
  end.

(** [hash(v)]: [None] when [v] has a hash, otherwise the name of the type
    that the TypeError of [hash] names.  Lists and dicts have no hash.  An
    alias hashes its origin and its [__args__] from left to right;
    [__args__] is what [get_args] shows, except for a [Callable] alias,
    whose parameter types [get_args] shows as one list and [__args__]
    holds flat. *)
Fixpoint unhashable (v : value) : option string :=
  match v with
  | VList _ => Some "list"
  | VDict _ => Some "dict"
  | VAlias o args =>
      let first :=
        fix first (l : list value) : option string :=
          match l with
          | [] => None
          | a :: rest =>
              match unhashable a with
              | Some type_name => Some type_name
              | None => first rest
              end
          end in
      match args with
      | [VList params; ret] =>
          if is_Callable o
          then match first params with
               | Some type_name => Some type_name
               | None => unhashable ret
               end
          else Some "list"
      | _ => first args
      end
  | _ => None
  end.

Definition hashable (v : value) : bool :=
  match unhashable v with
  | None => true
  | Some _ => false
  end.

Definition is_NoneType (v : value) : bool :=
  match v with
  | VClass CNoneType => true
  | _ => false
  end.

(** Line 65: [[arg for arg in args if arg is not type(None)]] *)
Definition non_none (args : list value) : list value :=
  filter (fun arg => negb (is_NoneType arg)) args.

(** ** tooling.py *)

Definition string_schema : value := VDict [("type", VStr "string")].

(** Lines 84-93: the primitive table and [mapping.get(typ, "string")].
    Looking a key up in a dict hashes it first. *)
Definition mapping_get (typ : value) : string :=
  match typ with
  | VClass CStr => "string"
  | VClass CInt => "integer"
  | VClass CFloat => "number"
  | VClass CBool => "boolean"
  | VClass CDate => "string"
  | VClass CDatetime => "string"
  | _ => "string"
  end.

Definition primitive_schema (typ : value) : result value :=
  match unhashable typ with
  | None => Ok (VDict [("type", VStr (mapping_get typ))])
  | Some type_name =>
      Raise (TypeError ("unhashable type: '" ++ type_name ++ "'"))
  end.

(** [Tool._infer_json_schema_type].  The recursive calls of the source are
    on [non_none[0]], [get_args(typ)[0]], [get_args(typ)[1]] and [str];
    here the first goes through a local walk over the arguments and the
    last is [primitive_schema] at [str], so that the recursion is
    structural.  The lemmas [infer_union], [infer_list] and [infer_dict]
    below give the equations in the source's form. *)
Fixpoint _infer_json_schema_type (typ : value) : result value :=
  match typ with
  | VAlias OLiteral args =>
      Ok (VDict [("type", VStr "string"); ("enum", VList args)])
  | VAlias OUnion args =>
      match (fix walk (l : list value) : list (result value) :=
               match l with
               | [] => []
               | arg :: rest =>
                   if is_NoneType arg then walk rest
                   else _infer_json_schema_type arg :: walk rest
               end) args with
      | [r] => r
      | _ => Ok string_schema
      end
  | VAlias OList args =>
      items <- match args with
               | [] => primitive_schema (VClass CStr)
               | a :: _ => _infer_json_schema_type a
               end ;;
      Ok (VDict [("type", VStr "array"); ("items", items)])
  | VAlias ODict args =>
      ap <- match args with
            | [] => primitive_schema (VClass CStr)
            | [_] => Raise IndexError
            | _ :: v :: _ => _infer_json_schema_type v
            end ;;
      Ok (VDict [("type", VStr "object"); ("additionalProperties", ap)])
  | _ => primitive_schema typ
  end.

(** [param.default] of an [inspect.Parameter]. *)
Inductive pydefault : Type :=
| Empty                        (* inspect.Parameter.empty: no default *)
| Plain (v : value)            (* a default of a builtin type *)
| Custom (qualname : string) (eq_empty : value).
                               (* an object of a class with its own __eq__,
                                  and what that answers for Parameter.empty *)

(** [inspect.Parameter]: its name and its default. *)
Record PyParameter : Type := {
  param_name : string;
  param_default : pydefault
}.

(** What [Tool.__init__] and the decorator read off the callable. *)
Record Callable : Type := {
  fn_truthy : bool;                             (* bool(func) *)
  fn_name : result string;                      (* func.__name__ *)
  fn_doc : option string;                       (* inspect.getdoc(func) *)
  fn_signature : result (list PyParameter);       (* inspect.signature(func, eval_str=True).parameters *)
  fn_type_hints : result (PyDict.t value)       (* get_type_hints(func) *)
}.

(** One entry of [Tool.parameters]: the dict with keys name, schema, required. *)
Record ParamSchema : Type := {
  ps_name : string;
  ps_schema : value;
  ps_required : value
}.

Record Tool : Type := {
  func : Callable;
  name : string;
  description : option string;
  signature : list PyParameter;
  type_hints : PyDict.t value;
  parameters : list ParamSchema
}.

(** Truth value of an [Optional[str]] argument: [None] and [""] are falsy. *)
Definition truthy (o : option string) : bool :=
  match o with
  | Some (String _ _) => true
  | _ => false
  end.

Definition unwrap (o : option string) : string :=
  match o with Some s => s | None => "" end.

(** [param.default == inspect.Parameter.empty], line 49.  The left
    operand answers: [Parameter.empty] is equal to itself, a value of a
    builtin type is equal to no class, and an object with its own [__eq__]
    gives what that method returns, which need not be a bool. *)
Definition default_eq_empty (p : PyParameter) : value :=
  match param_default p with
  | Empty => VBool true
  | Plain _ => VBool false
  | Custom _ eq_empty => eq_empty
  end.

(** The parameter has no default. *)
Definition has_no_default (p : PyParameter) : bool :=
  match param_default p with
  | Empty => true
  | _ => false
  end.

(** The truth value of an object, as [if] tests it. *)
Definition truth (v : value) : bool :=
  match v with
  | VNone => false
  | VBool b => b
  | VInt z => negb (Z.eqb z 0)
  | VFloat f => negb (PrimFloat.eqb f 0%float)
  | VStr s => negb (String.eqb s "")
  | VList xs => match xs with [] => false | _ :: _ => true end
  | VDict kvs => match kvs with [] => false | _ :: _ => true end
  | VClass _ | VAlias _ _ => true
  end.

(** [Tool._build_param_schema] *)
Definition _build_param_schema (hints : PyDict.t value) (param : PyParameter)
  : result ParamSchema :=
  let param_type :=
    match PyDict.get (param_name param) hints with
    | Some t => t
    | None => VClass CStr
    end in
  schema <- _infer_json_schema_type param_type ;;
  Ok {| ps_name := param_name param;
        ps_schema := schema;
        ps_required := default_eq_empty param |}.

(** A list comprehension whose body can raise: left to right, the first
    exception ends it. *)
Fixpoint for_each {A B : Type} (f : A -> result B) (xs : list A)
  : result (list B) :=
  match xs with
  | [] => Ok []
  | x :: rest =>
      y <- f x ;;
      ys <- for_each f rest ;;
      Ok (y :: ys)
  end.

(** [Tool.__init__] *)
Definition Tool_init (f : Callable) (name description : option string)
  : result Tool :=
  nm <- (if truthy name then Ok (unwrap name) else fn_name f) ;;
  let desc := if truthy description then description else fn_doc f in
  sig <- fn_signature f ;;
  hints <- fn_type_hints f ;;
  params <- for_each (_build_param_schema hints) sig ;;
  Ok {| func := f;
        name := nm;
        description := desc;
        signature := sig;
        type_hints := hints;
        parameters := params |}.

(** [Tool.from_func] *)
Definition from_func (f : Callable) : result Tool := Tool_init f None None.

Definition opt_str (o : option string) : value :=
  match o with
  | Some s => VStr s
  | None => VNone
  end.

(** [Tool.dict] *)
Definition Tool_dict (self : Tool) : value :=
  VDict
    [("type", VStr "function");
     ("function", VDict
        [("name", VStr (name self));
         ("description", opt_str (description self));
         ("parameters", VDict
            [("type", VStr "object");
             ("properties",
               VDict (PyDict.comprehension ps_name ps_schema (parameters self)));
             ("required",
               VList (List.map (fun param => VStr (ps_name param))
                        (filter (fun param => truth (ps_required param))
                                (parameters self))));
             ("additionalProperties", VBool false)])])].

(** [d[k]] on a value; anything that is not a dict with that key gives [None]. *)
Definition item (k : string) (d : value) : option value :=
  match d with
  | VDict kvs => PyDict.get k kvs
  | _ => None
  end.

(** [d[k1][k2]...] *)
Fixpoint path (ks : list string) (d : value) : option value :=
  match ks with
  | [] => Some d
  | k :: rest =>
      match item k d with
      | Some d' => path rest d'
      | None => None
      end
  end.

(** ** messages.py *)

(** An instance of one of the five model classes.  [role] is not stored:
    its validator admits one value per class, see [role_of]. *)
Inductive Message : Type :=
| BaseMessage   (content : option string)
| SystemMessage (content : option string)
| UserMessage   (content : option string)
| ToolMessage   (content : option string) (tool_call_id : string) (name : string)
| AIMessage     (content : option string) (tool_calls : option (list value)).

Inductive message_class : Type :=
| BaseMessage_cls | SystemMessage_cls | UserMessage_cls
| ToolMessage_cls | AIMessage_cls.

(** The literal of the class's [role] field; [BaseMessage] has no such field. *)
Definition role_literal (cls : message_class) : option string :=
  match cls with
  | BaseMessage_cls => None
  | SystemMessage_cls => Some "system"
  | UserMessage_cls => Some "user"
  | ToolMessage_cls => Some "tool"
  | AIMessage_cls => Some "assistant"
  end.

(** Field names, base class first, in the order of declaration. *)
Definition declared_fields (cls : message_class) : list string :=
  match cls with
  | BaseMessage_cls => ["content"]
  | SystemMessage_cls | UserMessage_cls => ["content"; "role"]
  | ToolMessage_cls => ["content"; "role"; "tool_call_id"; "name"]
  | AIMessage_cls => ["content"; "role"; "tool_calls"]
  end.

Definition declared (cls : message_class) (k : string) : bool :=
  existsb (String.eqb k) (declared_fields cls).

Definition class_of (m : Message) : message_class :=
  match m with
  | BaseMessage _ => BaseMessage_cls
  | SystemMessage _ => SystemMessage_cls
  | UserMessage _ => UserMessage_cls
  | ToolMessage _ _ _ => ToolMessage_cls
  | AIMessage _ _ => AIMessage_cls
  end.

Definition role_of (m : Message) : option string := role_literal (class_of m).

Definition content_of (m : Message) : option string :=
  match m with
  | BaseMessage c | SystemMessage c | UserMessage c
  | ToolMessage c _ _ | AIMessage c _ => c
  end.

(** The outcome of validating one field. *)
Inductive field (A : Type) : Type :=
| Valid (a : A)
| Invalid.
Arguments Valid {A} a.
Arguments Invalid {A}.

Definition bad {A : Type} (field_name : string) (r : field A) : list string :=
  match r with
  | Valid _ => []
  | Invalid => [field_name]
  end.

Section Pydantic.

(** [BaseModel.__init__] on keyword arguments [data], as the classes of messages.py use it: no
    model configuration is set, so keys of [data] that name no field are
    left out; every declared field is validated, a missing one takes its
    default or is an error when it has none; all bad fields are reported in
    one ValidationError.

    What the library does with an input of another type than the field's
    depends on its version (one converts a number given for a [str] field
    to text, another refuses it); the two functions below stand for that. *)
Variable coerce_str : value -> option string.
Variable coerce_list : value -> option (list value).

Definition of_option {A : Type} (o : option A) : field A :=
  match o with
  | Some a => Valid a
  | None => Invalid
  end.

(** [content: Optional[str] = ""] *)
Definition validate_content (data : PyDict.t value) : field (option string) :=
  match PyDict.get "content" data with
  | None => Valid (Some "")
  | Some VNone => Valid None
  | Some (VStr s) => Valid (Some s)
  | Some v => match coerce_str v with
              | Some s => Valid (Some s)
              | None => Invalid
              end
  end.

(** [role: Literal[lit] = lit] *)
Definition validate_role (lit : string) (data : PyDict.t value) : field string :=
  match PyDict.get "role" data with
  | None => Valid lit
  | Some (VStr s) => if String.eqb s lit then Valid lit else Invalid
  | Some _ => Invalid
  end.

(** [tool_call_id: str] and [name: str]: no default *)
Definition validate_str (field_name : string) (data : PyDict.t value)
  : field string :=
  match PyDict.get field_name data with
  | None => Invalid
  | Some VNone => Invalid
  | Some (VStr s) => Valid s
  | Some v => of_option (coerce_str v)
  end.

(** [tool_calls: Optional[List[Any]] = None] *)
Definition validate_tool_calls (data : PyDict.t value)
  : field (option (list value)) :=
  match PyDict.get "tool_calls" data with
  | None => Valid None
  | Some VNone => Valid None
  | Some (VList xs) => Valid (Some xs)
  | Some v => match coerce_list v with
              | Some xs => Valid (Some xs)
              | None => Invalid
              end
  end.

(** Calling the class [cls] with keyword arguments [data]. *)
Definition construct (cls : message_class) (data : PyDict.t value)
  : result Message :=
  let content := validate_content data in
  match cls with
  | BaseMessage_cls =>
      match content with
      | Valid c => Ok (BaseMessage c)
      | _ => Raise (ValidationError (bad "content" content))
      end
  | SystemMessage_cls =>
      let role := validate_role "system" data in
      match content, role with
      | Valid c, Valid _ => Ok (SystemMessage c)
      | _, _ => Raise (ValidationError (bad "content" content ++ bad "role" role))
      end
  | UserMessage_cls =>
      let role := validate_role "user" data in
      match content, role with
      | Valid c, Valid _ => Ok (UserMessage c)
      | _, _ => Raise (ValidationError (bad "content" content ++ bad "role" role))
      end
  | ToolMessage_cls =>
      let role := validate_role "tool" data in
      let tool_call_id := validate_str "tool_call_id" data in
      let name := validate_str "name" data in
      match content, role, tool_call_id, name with
      | Valid c, Valid _, Valid i, Valid n => Ok (ToolMessage c i n)
      | _, _, _, _ =>
          Raise (ValidationError
                   (bad "content" content ++ bad "role" role
                    ++ bad "tool_call_id" tool_call_id ++ bad "name" name))
      end
  | AIMessage_cls =>
      let role := validate_role "assistant" data in
      let tool_calls := validate_tool_calls data in
      match content, role, tool_calls with
      | Valid c, Valid _, Valid tc => Ok (AIMessage c tc)
      | _, _, _ =>
          Raise (ValidationError
                   (bad "content" content ++ bad "role" role
                    ++ bad "tool_calls" tool_calls))
      end
  end.

End Pydantic.

(** [BaseMessage.dict]: [dict(self)], the fields in declaration order. *)
Definition Message_dict (self : Message) : PyDict.t value :=
  match self with
  | BaseMessage c => [("content", opt_str c)]
  | SystemMessage c => [("content", opt_str c); ("role", VStr "system")]
  | UserMessage c => [("content", opt_str c); ("role", VStr "user")]
  | ToolMessage c i n =>
      [("content", opt_str c); ("role", VStr "tool");
       ("tool_call_id", VStr i); ("name", VStr n)]
  | AIMessage c tc =>
      [("content", opt_str c); ("role", VStr "assistant");
       ("tool_calls", match tc with Some xs => VList xs | None => VNone end)]
  end.

(** ** llm.py *)

(** The state of an [LLM] that the methods below read or write.  The
    [client] attribute, the handle to the remote API, is used by [invoke]
    only and is left out. *)
Record LLM : Type := {
  model : string;
  temperature : float;
  tools : PyDict.t Tool
}.

(** [LLM.__init__], lines 21-22 and 30-32; [tools or []] turns a missing
    list into the empty one. *)
Definition LLM_init (model : string) (temperature : float)
           (tools : option (list Tool)) : LLM :=
  {| model := model;
     temperature := temperature;
     tools := PyDict.comprehension name (fun tool => tool)
                (match tools with Some ts => ts | None => [] end) |}.

(** [LLM.register_tool] *)
Definition register_tool (self : LLM) (tool : Tool) : LLM :=
  {| model := model self;
     temperature := temperature self;
     tools := PyDict.set (name tool) tool (tools self) |}.

(** [LLM._build_payload]; a dict is true when it is not empty. *)
Definition _build_payload (self : LLM) (messages : list Message)
  : PyDict.t value :=
  let payload :=
    [("model", VStr (model self));
     ("temperature", VFloat (temperature self));
     ("messages", VList (List.map (fun m => VDict (Message_dict m)) messages))] in
  match tools self with
  | [] => payload
  | _ :: _ =>
      let payload :=
        PyDict.set "tools"
          (VList (List.map Tool_dict (PyDict.values (tools self)))) payload in
      PyDict.set "tool_choice" (VStr "auto") payload
  end.

(** What [_convert_input] can be handed: it tells apart text, a message,
    a list, and everything else, of which only the type's name is used. *)
Inductive input : Type :=
| InStr (s : string)
| InMessage (m : Message)
| InList (xs : list input)
| InOther (type_name : string).

Definition class_name (cls : message_class) : string :=
  match cls with
  | BaseMessage_cls => "lib.messages.BaseMessage"
  | SystemMessage_cls => "lib.messages.SystemMessage"
  | UserMessage_cls => "lib.messages.UserMessage"
  | ToolMessage_cls => "lib.messages.ToolMessage"
  | AIMessage_cls => "lib.messages.AIMessage"
  end.

(** The name of [type(input)]. *)
Definition type_name_of (i : input) : string :=
  match i with
  | InStr _ => "str"
  | InMessage m => class_name (class_of m)
  | InList _ => "list"
  | InOther type_name => type_name
  end.

(** How an f-string prints [type(input)]. *)
Definition type_repr (i : input) : string :=
  "<class '" ++ type_name_of i ++ "'>".

(** [isinstance(m, BaseMessage)] *)
Definition is_message (i : input) : bool :=
  match i with
  | InMessage _ => true
  | _ => false
  end.

(** The messages of a list all of whose items passed [is_message]. *)
Fixpoint messages_of (xs : list input) : list Message :=
  match xs with
  | [] => []
  | InMessage m :: rest => m :: messages_of rest
  | _ :: rest => messages_of rest
  end.

Section Client.

Variable coerce_str : value -> option string.
Variable coerce_list : value -> option (list value).

(** [LLM._convert_input] *)
Definition _convert_input (i : input) : result (list Message) :=
  match i with
  | InStr s =>
      m <- construct coerce_str coerce_list UserMessage_cls [("content", VStr s)] ;;
      Ok [m]
  | InMessage m => Ok [m]
  | InList xs =>
      if forallb is_message xs
      then Ok (messages_of xs)
      else Raise (ValueError ("Invalid input type " ++ type_repr i ++ "."))
  | InOther _ =>
      Raise (ValueError ("Invalid input type " ++ type_repr i ++ "."))
  end.

End Client.

(** The inputs [_convert_input] takes: text, a message, a list of messages. *)
Definition accepted (i : input) : bool :=
  match i with
  | InStr _ | InMessage _ => true
  | InList xs => forallb is_message xs
  | InOther _ => false
  end.

(** ** Sample objects *)

(** A library version that refuses every input of another type. *)
Definition refuse_str (v : value) : option string := None.
Definition refuse_list (v : value) : option (list value) := None.

(** [Optional[int]], [Union[int, str]], [dict[int]], [List[Optional[str]]] *)
Definition optional_int : value :=
  VAlias OUnion [VClass CInt; VClass CNoneType].
Definition int_or_str : value :=
  VAlias OUnion [VClass CInt; VClass CStr].
Definition dict_int : value :=
  VAlias ODict [VClass CInt].
Definition list_optional_str : value :=
  VAlias OList [VAlias OUnion [VClass CStr; VClass CNoneType]].

(** [def add(a: int, b: int = 0) -> int], documented. *)
Definition add_fn : Callable :=
  {| fn_truthy := true;
     fn_name := Ok "add";
     fn_doc := Some "Add two numbers.";
     fn_signature := Ok [ {| param_name := "a"; param_default := Empty |};
                          {| param_name := "b"; param_default := Plain (VInt 0) |} ];
     fn_type_hints := Ok [("a", VClass CInt); ("b", VClass CInt);
                          ("return", VClass CInt)] |}.

(** [Tool(add)] *)
Definition add_tool : Tool :=
  {| func := add_fn;
     name := "add";
     description := Some "Add two numbers.";
     signature := [ {| param_name := "a"; param_default := Empty |};
                    {| param_name := "b"; param_default := Plain (VInt 0) |} ];
     type_hints := [("a", VClass CInt); ("b", VClass CInt); ("return", VClass CInt)];
     parameters := [ {| ps_name := "a";
                        ps_schema := VDict [("type", VStr "integer")];
                        ps_required := VBool true |};
                     {| ps_name := "b";
                        ps_schema := VDict [("type", VStr "integer")];
                        ps_required := VBool false |} ] |}.

(** [def ping(host): ...] with neither annotations nor a docstring. *)
Definition ping_fn : Callable :=
  {| fn_truthy := true;
     fn_name := Ok "ping";
     fn_doc := None;
     fn_signature := Ok [ {| param_name := "host"; param_default := Empty |} ];
     fn_type_hints := Ok [] |}.

(** [Tool(ping)] *)
Definition ping_tool : Tool :=
  {| func := ping_fn;
     name := "ping";
     description := None;
     signature := [ {| param_name := "host"; param_default := Empty |} ];
     type_hints := [];
     parameters := [ {| ps_name := "host";
                        ps_schema := string_schema;
                        ps_required := VBool true |} ] |}.

(** [def index(table: dict[int]): ...] *)
Definition index_fn : Callable :=
  {| fn_truthy := true;
     fn_name := Ok "index";
     fn_doc := None;
     fn_signature := Ok [ {| param_name := "table"; param_default := Empty |} ];
     fn_type_hints := Ok [("table", dict_int)] |}.

(** Two tools registered under the same name. *)
Definition search_v1 : Tool :=
  {| func := ping_fn; name := "search"; description := Some "first";
     signature := []; type_hints := []; parameters := [] |}.
Definition search_v2 : Tool :=
  {| func := add_fn; name := "search"; description := Some "second";
     signature := []; type_hints := []; parameters := [] |}.
Definition fetch_tool : Tool :=
  {| func := ping_fn; name := "fetch"; description := None;
     signature := []; type_hints := []; parameters := [] |}.

Definition fresh_llm : LLM := LLM_init "gpt-4o-mini" 0%float None.

(** ** The rest of tooling.py and llm.py *)

(** The JSON Schema type names the inference can put under [type]. *)
Definition json_type_names : list string :=
  ["string"; "integer"; "number"; "boolean"; "array"; "object"].

(** Line 44: [self.type_hints.get(name, str)] *)
Definition param_type (hints : PyDict.t value) (param : PyParameter) : value :=
  match PyDict.get (param_name param) hints with
  | Some t => t
  | None => VClass CStr
  end.

(** What the [tool] decorator returns: the tool when it is given the
    function ([@tool]), the decorator itself when it is not
    ([@tool(name=...)]). *)
Inductive decorated : Type :=
| Wrapped (t : result Tool)
| Wrapper (wrapper : Callable -> result Tool).

(** [tool(func=None, *, name=None, description=None)], lines 127-135.  The
    inner function [wrapped] is built and dropped: the tool wraps [f].
    Line 135 tests the truth value of [func]: [None] is false, and so is a
    callable object that says so. *)
Definition tool (func : option Callable) (name description : option string)
  : decorated :=
  let wrapper := fun f => Tool_init f name description in
  match func with
  | Some f => if fn_truthy f then Wrapped (wrapper f) else Wrapper wrapper
  | None => Wrapper wrapper
  end.

(** The entries of the tool registry agree with the tools they hold. *)
Definition registry_ok (d : PyDict.t Tool) : Prop :=
  NoDup (PyDict.keys d) /\ Forall (fun kv => fst kv = name (snd kv)) d.

(** The reply of the remote API, as far as [invoke] reads it:
    [response.choices], and per choice [message.content] and
    [message.tool_calls]. *)
Record ChatCompletionMessage : Type := {
  cm_content : option string;
  cm_tool_calls : option (list value)
}.

Record Choice : Type := {
  choice_message : ChatCompletionMessage
}.

Record ChatCompletion : Type := {
  choices : list Choice
}.

Definition opt_list (o : option (list value)) : value :=
  match o with
  | Some xs => VList xs
  | None => VNone
  end.

Section Invoke.

Variable coerce_str : value -> option string.
Variable coerce_list : value -> option (list value).

(** [self.client.chat.completions.create], called with the payload as
    keyword arguments. *)
Variable create : PyDict.t value -> result ChatCompletion.

(** [LLM.invoke] *)
Definition invoke (self : LLM) (i : input) : result Message :=
  messages <- _convert_input coerce_str coerce_list i ;;
  let payload := _build_payload self messages in
  response <- create payload ;;
  match choices response with
  | [] => Raise IndexError
  | choice :: _ =>
      let message := choice_message choice in
      construct coerce_str coerce_list AIMessage_cls
        [("content", opt_str (cm_content message));
         ("tool_calls", opt_list (cm_tool_calls message))]
  end.

End Invoke.

(** ** More sample objects *)

Definition greeting : ChatCompletionMessage :=
  {| cm_content := Some "Hello!"; cm_tool_calls := None |}.

(** A remote API that answers every request with one choice. *)
Definition greeter (payload : PyDict.t value) : result ChatCompletion :=
  Ok {| choices := [ {| choice_message := greeting |} ] |}.

(** A remote API that answers with no choice at all. *)
Definition mute (payload : PyDict.t value) : result ChatCompletion :=
  Ok {| choices := [] |}.

(** [def lookup(key: str, table: Dict[str, int], limit=10): ...] *)
Definition lookup_fn : Callable :=
  {| fn_truthy := true;
     fn_name := Ok "lookup";
     fn_doc := Some "Look a key up.";
     fn_signature := Ok [ {| param_name := "key"; param_default := Empty |};
                          {| param_name := "table"; param_default := Empty |};
                          {| param_name := "limit"; param_default := Plain (VInt 10) |} ];
     fn_type_hints := Ok [("key", VClass CStr);
                          ("table", VAlias ODict [VClass CStr; VClass CInt])] |}.

(** [Tool(lookup)] *)
Definition lookup_tool : Tool :=
  {| func := lookup_fn;
     name := "lookup";
     description := Some "Look a key up.";
     signature := [ {| param_name := "key"; param_default := Empty |};
                    {| param_name := "table"; param_default := Empty |};
                    {| param_name := "limit"; param_default := Plain (VInt 10) |} ];
     type_hints := [("key", VClass CStr);
                    ("table", VAlias ODict [VClass CStr; VClass CInt])];
     parameters :=
       [ {| ps_name := "key"; ps_schema := string_schema; ps_required := VBool true |};
         {| ps_name := "table";
            ps_schema := VDict [("type", VStr "object");
                                ("additionalProperties",
                                  VDict [("type", VStr "integer")])];
            ps_required := VBool true |};
         {| ps_name := "limit"; ps_schema := string_schema;
            ps_required := VBool false |} ] |}.

(** [def broken(x: int, y: dict[int], z: [int]): ...] *)
Definition broken_fn : Callable :=
  {| fn_truthy := true;
     fn_name := Ok "broken";
     fn_doc := None;
     fn_signature := Ok [ {| param_name := "x"; param_default := Empty |};
                          {| param_name := "y"; param_default := Empty |};
                          {| param_name := "z"; param_default := Empty |} ];
     fn_type_hints := Ok [("x", VClass CInt); ("y", dict_int);
                          ("z", VList [VClass CInt])] |}.

(** [int | None] where its origin is [types.UnionType], as on the
    interpreters before 3.14. *)
Definition pep604_optional_int : value :=
  VAlias (OOther "types.UnionType") [VClass CInt; VClass CNoneType].

(** [Callable[[int], str]], as [get_args] shows it. *)
Definition callable_int_str : value :=
  VAlias (OOther "collections.abc.Callable") [VList [VClass CInt]; VClass CStr].

(** [def notify(user: str, channel=unittest.mock.ANY): ...]; [ANY] is
    equal to everything. *)
Definition notify_fn : Callable :=
  {| fn_truthy := true;
     fn_name := Ok "notify";
     fn_doc := None;
     fn_signature :=
       Ok [ {| param_name := "user"; param_default := Empty |};
            {| param_name := "channel";
               param_default := Custom "unittest.mock._ANY" (VBool true) |} ];
     fn_type_hints := Ok [("user", VClass CStr)] |}.

(** [Tool(notify)] *)
Definition notify_tool : Tool :=
  {| func := notify_fn;
     name := "notify";
     description := None;
     signature :=
       [ {| param_name := "user"; param_default := Empty |};
         {| param_name := "channel";
            param_default := Custom "unittest.mock._ANY" (VBool true) |} ];
     type_hints := [("user", VClass CStr)];
     parameters :=
       [ {| ps_name := "user"; ps_schema := string_schema;
            ps_required := VBool true |};
         {| ps_name := "channel"; ps_schema := string_schema;
            ps_required := VBool true |} ] |}.

(** A callable object whose [__bool__] answers [False]. *)
Definition quiet_fn : Callable :=
  {| fn_truthy := false;
     fn_name := Ok "quiet";
     fn_doc := None;
     fn_signature := Ok [];
     fn_type_hints := Ok [] |}.

(** The default is [Parameter.empty] or of a builtin type. *)
Definition plain_default (p : PyParameter) : bool :=
  match param_default p with
  | Custom _ _ => false
  | _ => true
  end.

(** * Properties *)

(** ** Dicts *)

Section DictFacts.
Variable V : Type.
Implicit Types (d : PyDict.t V) (k : string) (v : V).

Lemma get_set_same k v d : PyDict.get k (PyDict.set k v d) = Some v.
Proof.
  induction d as [|[k' v'] d IH]; simpl.
  - now rewrite String.eqb_refl.
  - destruct (String.eqb k k') eqn:E; simpl; rewrite E; auto.
Qed.

Lemma get_set_other k k' v d :
  k <> k' -> PyDict.get k (PyDict.set k' v d) = PyDict.get k d.
Proof.
  intros Hne. apply String.eqb_neq in Hne.
  induction d as [|[k0 v0] d IH]; simpl.
  - now rewrite Hne.
  - destruct (String.eqb k' k0) eqn:E; simpl.
    + apply String.eqb_eq in E; subst k0. now rewrite Hne.
    + now rewrite IH.
Qed.

(** Writing a key twice leaves what writing it once with the last value
    leaves: same entries, same positions. *)
Lemma set_set_same k v1 v2 d :
  PyDict.set k v2 (PyDict.set k v1 d) = PyDict.set k v2 d.
Proof.
  induction d as [|[k' v'] d IH]; simpl.
  - now rewrite String.eqb_refl.
  - destruct (String.eqb k k') eqn:E; simpl; rewrite E; [reflexivity|].
    now rewrite IH.
Qed.

Lemma len_set_present k v v' d :
  PyDict.get k d = Some v' -> PyDict.len (PyDict.set k v d) = PyDict.len d.
Proof.
  unfold PyDict.len.
  induction d as [|[k0 v0] d IH]; simpl; [discriminate|].
  destruct (String.eqb k k0); simpl; auto.
Qed.

(** Overwriting keeps every key where it was. *)
Lemma keys_set_present k v v' d :
  PyDict.get k d = Some v' -> PyDict.keys (PyDict.set k v d) = PyDict.keys d.
Proof.
  unfold PyDict.keys.
  induction d as [|[k0 v0] d IH]; simpl; [discriminate|].
  destruct (String.eqb k k0); simpl; [reflexivity|].
  intros H. now rewrite IH.
Qed.

Lemma set_absent k v d :
  PyDict.get k d = None -> PyDict.set k v d = d ++ [(k, v)].
Proof.
  induction d as [|[k0 v0] d IH]; simpl; [reflexivity|].
  destruct (String.eqb k k0); [discriminate|].
  intros H. now rewrite IH.
Qed.

Lemma get_absent_iff k d : PyDict.get k d = None <-> ~ In k (PyDict.keys d).
Proof.
  unfold PyDict.keys.
  induction d as [|[k0 v0] d IH]; simpl; [tauto|].
  destruct (String.eqb k k0) eqn:E.
  - apply String.eqb_eq in E. split; [discriminate|]. intros H. destruct H. now left.
  - apply String.eqb_neq in E. rewrite IH. split.
    + intros H [H1|H1]; [congruence|tauto].
    + tauto.
Qed.

Lemma keys_app d1 d2 : PyDict.keys (d1 ++ d2) = PyDict.keys d1 ++ PyDict.keys d2.
Proof. unfold PyDict.keys. apply map_app. Qed.

End DictFacts.

(** A comprehension over items with distinct keys keeps them all, in order. *)
Lemma fold_set_distinct (A V : Type) (key : A -> string) (val : A -> V)
      (xs : list A) (d : PyDict.t V) :
  NoDup (PyDict.keys d ++ List.map key xs) ->
  fold_left (fun d x => PyDict.set (key x) (val x) d) xs d
  = d ++ List.map (fun x => (key x, val x)) xs.
Proof.
  revert d. induction xs as [|x xs IH]; intros d Hnd; simpl.
  - now rewrite app_nil_r.
  - simpl in Hnd.
    assert (Hx : PyDict.get (key x) d = None).
    { apply get_absent_iff. intros Hin.
      apply NoDup_remove_2 in Hnd. apply Hnd. apply in_or_app. now left. }
    rewrite (set_absent _ _ _ Hx).
    rewrite IH.
    + now rewrite <- app_assoc.
    + rewrite keys_app. simpl. rewrite <- app_assoc. simpl. exact Hnd.
Qed.

(** ** Schema inference: the equations of the source *)

(** The walk inside the [Union] case is the recursive call mapped over the
    arguments that are not [NoneType]. *)
Lemma non_none_walk (args : list value) :
  (fix walk (l : list value) : list (result value) :=
     match l with
     | [] => []
     | arg :: rest =>
         if is_NoneType arg then walk rest
         else _infer_json_schema_type arg :: walk rest
     end) args
  = List.map _infer_json_schema_type (non_none args).
Proof.
  induction args as [|arg rest IH]; [reflexivity|].
  unfold non_none in *. simpl.
  destruct (is_NoneType arg); simpl; now rewrite IH.
Qed.

(** Lines 63-68. *)
Lemma infer_union (args : list value) :
  _infer_json_schema_type (VAlias OUnion args)
  = match non_none args with
    | [t] => _infer_json_schema_type t
    | _ => Ok string_schema
    end.
Proof.
  simpl. rewrite non_none_walk.
  destruct (non_none args) as [|t [|t' rest]]; reflexivity.
Qed.

Lemma infer_str : _infer_json_schema_type (VClass CStr) = Ok string_schema.
Proof. reflexivity. Qed.

(** Lines 71-75: [get_args(typ)[0] if get_args(typ) else str]. *)
Lemma infer_list (args : list value) :
  _infer_json_schema_type (VAlias OList args)
  = items <- _infer_json_schema_type (hd (VClass CStr) args) ;;
    Ok (VDict [("type", VStr "array"); ("items", items)]).
Proof. destruct args; reflexivity. Qed.

(** Lines 77-81: [get_args(typ)[1] if get_args(typ) else str]; indexing
    past the end of the tuple raises. *)
Lemma infer_dict (args : list value) :
  _infer_json_schema_type (VAlias ODict args)
  = ap <- match args with
          | [] => _infer_json_schema_type (VClass CStr)
          | _ :: _ => match nth_error args 1 with
                      | Some v => _infer_json_schema_type v
                      | None => Raise IndexError
                      end
          end ;;
    Ok (VDict [("type", VStr "object"); ("additionalProperties", ap)]).
Proof. destruct args as [|k [|v rest]]; reflexivity. Qed.

(** Lines 84-93: every other object goes to the primitive table. *)
Lemma infer_fallthrough (typ : value) :
  match get_origin typ with
  | Some OLiteral | Some OUnion | Some OList | Some ODict => False
  | _ => True
  end ->
  _infer_json_schema_type typ = primitive_schema typ.
Proof.
  destruct typ as [| | | | | | | |o args]; simpl; try reflexivity.
  destruct o; simpl; intros H; try contradiction; reflexivity.
Qed.

(** An alias of any other origin is looked up in the table as it is and
    gets the fallback, whatever its arguments: a tuple or a set alias,
    and a union object whose origin is not [typing.Union]. *)
Lemma infer_other_origin (qualname : string) (args : list value) :
  hashable (VAlias (OOther qualname) args) = true ->
  _infer_json_schema_type (VAlias (OOther qualname) args) = Ok string_schema.
Proof.
  intros H. rewrite infer_fallthrough by exact I.
  unfold primitive_schema. unfold hashable in H.
  destruct (unhashable (VAlias (OOther qualname) args)); [discriminate|].
  reflexivity.
Qed.

(** A [Callable] alias has a hash although [get_args] shows a list in it,
    and gets the fallback; an alias of another origin with a list among
    its arguments has none. *)
Lemma infer_callable_alias :
  _infer_json_schema_type callable_int_str = Ok string_schema /\
  _infer_json_schema_type (VAlias (OOther "tuple") [VList [VClass CInt]; VClass CStr])
  = Raise (TypeError "unhashable type: 'list'").
Proof. split; reflexivity. Qed.

(** Induction on a type through the arguments of its aliases. *)
Lemma value_alias_ind (P : value -> Prop) :
  (forall typ, Forall P (get_args typ) -> P typ) -> forall typ, P typ.
Proof.
  intros step.
  fix IH 1. intros typ. apply step.
  destruct typ as [| | | | | | | |o args]; simpl; try constructor.
  induction args as [|a rest IHrest]; constructor; [apply IH | exact IHrest].
Qed.

Lemma non_none_incl (args : list value) (t : value) :
  In t (non_none args) -> In t args.
Proof. unfold non_none. intros H. now apply filter_In in H. Qed.

(** ** C1 *)

(** C1, at the input where the code departs from it: the claim is that
    the inference returns a schema for every type shape and never raises.
    On [dict[int]], a [dict] alias with a single argument, the guard of
    line 80 sees a non-empty argument tuple and then reads its second
    item: the call raises IndexError.  Wrapping a function annotated with
    it fails the same way, and an annotation without a hash (a list
    object, say) raises TypeError at the table lookup of line 93. *)
Theorem infer_dict_one_argument_raises :
  _infer_json_schema_type dict_int = Raise IndexError /\
  Tool_init index_fn None None = Raise IndexError /\
  _infer_json_schema_type (VList [VClass CInt])
  = Raise (TypeError "unhashable type: 'list'").
Proof. repeat split; reflexivity. Qed.

(** ** C3 *)

(** C3, at the input where the code departs from it: the claim is that an
    optional type with one alternative T besides the absent one gets the
    schema of T.  Line 63 tests [origin is Union], which the optional
    type written [int | None] does not pass where its origin is
    [types.UnionType]: it has the one alternative [int] and gets the
    fallback [{"type": "string"}], not the [{"type": "integer"}] that
    [Optional[int]] gets. *)
Theorem infer_pep604_optional_is_string :
  non_none (get_args pep604_optional_int) = [VClass CInt] /\
  _infer_json_schema_type pep604_optional_int = Ok string_schema /\
  _infer_json_schema_type (VClass CInt) = Ok (VDict [("type", VStr "integer")]) /\
  _infer_json_schema_type optional_int = Ok (VDict [("type", VStr "integer")]).
Proof. repeat split; reflexivity. Qed.

(** X32: for an alias whose origin is [typing.Union] (so for every
    [Optional[T]] and [Union[...]]): when its arguments other than
    [NoneType] are exactly one type T, the inference gives what it gives
    for T (its schema, or the exception T raises); when they are more than
    one, it gives the fallback [{"type": "string"}]. *)
Theorem infer_optional (args : list value) :
  (forall T : value,
      non_none args = [T] ->
      _infer_json_schema_type (VAlias OUnion args) = _infer_json_schema_type T) /\
  (1 < List.length (non_none args) ->
   _infer_json_schema_type (VAlias OUnion args) = Ok string_schema).
Proof.
  rewrite infer_union. split.
  - intros T H. now rewrite H.
  - destruct (non_none args) as [|t [|t' rest]]; simpl; intros H;
      [lia | lia | reflexivity].
Qed.

Lemma infer_optional_witness :
  _infer_json_schema_type optional_int = Ok (VDict [("type", VStr "integer")]) /\
  _infer_json_schema_type int_or_str = Ok string_schema.
Proof.
  split.
  - unfold optional_int.
    rewrite (proj1 (infer_optional [VClass CInt; VClass CNoneType]) (VClass CInt));
      reflexivity.
  - apply (proj2 (infer_optional [VClass CInt; VClass CStr])). simpl. lia.
Defined.

(** ** Tool construction and export *)

(** [Tool.parameters] follows the signature: same names, same order, and
    [required] set where the default is [inspect.Parameter.empty]. *)
Lemma for_each_build_param_schema (hints : PyDict.t value)
      (sig : list PyParameter) (params : list ParamSchema) :
  for_each (_build_param_schema hints) sig = Ok params ->
  List.map ps_name params = List.map param_name sig /\
  List.map ps_required params = List.map default_eq_empty sig.
Proof.
  revert params. induction sig as [|p sig IH]; simpl; intros params H.
  - injection H as <-. auto.
  - unfold _build_param_schema at 1 in H.
    destruct (_infer_json_schema_type _) as [schema|e]; simpl in H; [|discriminate].
    destruct (for_each _ sig) as [ys|e]; simpl in H; [|discriminate].
    injection H as <-. destruct (IH ys eq_refl) as [Hn Hr].
    simpl. now rewrite Hn, Hr.
Qed.

Lemma required_names (sig : list PyParameter) (params : list ParamSchema) :
  List.map ps_name params = List.map param_name sig ->
  List.map ps_required params = List.map default_eq_empty sig ->
  List.map ps_name (filter (fun param => truth (ps_required param)) params)
  = List.map param_name (filter (fun p => truth (default_eq_empty p)) sig).
Proof.
  revert params. induction sig as [|p sig IH]; intros [|q params]; simpl;
    try discriminate; auto.
  intros Hn Hr. injection Hn as Hn1 Hn2. injection Hr as Hr1 Hr2.
  rewrite Hr1. destruct (truth (default_eq_empty p)); simpl; rewrite ?Hn1;
    now rewrite (IH params).
Qed.

(** Among parameters whose defaults are of builtin types, the test of
    line 49 is true of those without default and of no other. *)
Lemma filter_plain_defaults (sig : list PyParameter) :
  forallb plain_default sig = true ->
  filter (fun p => truth (default_eq_empty p)) sig = filter has_no_default sig.
Proof.
  induction sig as [|p sig IH]; simpl; [reflexivity|].
  intros H. apply andb_true_iff in H as [Hp Hs].
  rewrite (IH Hs). unfold default_eq_empty, has_no_default, plain_default in *.
  destruct (param_default p); try reflexivity. discriminate.
Qed.

(** What a successful [Tool.__init__] went through. *)
Lemma Tool_init_ok (f : Callable) (name0 description0 : option string) (t : Tool) :
  Tool_init f name0 description0 = Ok t ->
  exists sig hints,
    fn_signature f = Ok sig /\ fn_type_hints f = Ok hints /\
    (if truthy name0 then Ok (unwrap name0) else fn_name f) = Ok (name t) /\
    description t = (if truthy description0 then description0 else fn_doc f) /\
    for_each (_build_param_schema hints) sig = Ok (parameters t).
Proof.
  unfold Tool_init. intros H.
  destruct (if truthy name0 then _ else _) as [nm|e] eqn:Hn; simpl in H; [|discriminate].
  destruct (fn_signature f) as [sig|e] eqn:Hs; simpl in H; [|discriminate].
  destruct (fn_type_hints f) as [hints|e] eqn:Hh; simpl in H; [|discriminate].
  destruct (for_each _ sig) as [params|e] eqn:Hp; simpl in H; [|discriminate].
  injection H as <-. simpl. exists sig, hints. repeat split; auto.
Qed.

(** ** C2 *)

(** C2, at the input where the code departs from it: the claim is that
    [required] holds exactly the parameters without default.  Line 49
    asks the default whether it is equal to [Parameter.empty], and a
    default of a class with its own [__eq__] may say yes: for
    [def notify(user: str, channel=ANY)] the parameter [channel] has a
    default and is listed as required. *)
Theorem required_lists_parameter_with_default :
  Tool_init notify_fn None None = Ok notify_tool /\
  List.map has_no_default (signature notify_tool) = [true; false] /\
  path ["function"; "parameters"; "required"] (Tool_dict notify_tool)
  = Some (VList [VStr "user"; VStr "channel"]).
Proof. repeat split; reflexivity. Qed.

(** X31: for every callable that [Tool] wraps, the [required] list of the
    exported descriptor holds, in the order of the signature, the names of
    the parameters for which [param.default == Parameter.empty] is true;
    when every default in the signature is of a builtin type, these are
    exactly the parameters without default.  [additionalProperties] is
    [False]. *)
Theorem descriptor_required (f : Callable) (name0 description0 : option string)
        (t : Tool) :
  Tool_init f name0 description0 = Ok t ->
  exists sig,
    fn_signature f = Ok sig /\
    path ["function"; "parameters"; "required"] (Tool_dict t)
    = Some (VList (List.map (fun p => VStr (param_name p))
                            (filter (fun p => truth (default_eq_empty p)) sig))) /\
    (forallb plain_default sig = true ->
     path ["function"; "parameters"; "required"] (Tool_dict t)
     = Some (VList (List.map (fun p => VStr (param_name p))
                             (filter has_no_default sig)))) /\
    path ["function"; "parameters"; "additionalProperties"] (Tool_dict t)
    = Some (VBool false).
Proof.
  intros H. apply Tool_init_ok in H as (sig & hints & Hsig & _ & _ & _ & Hp).
  exists sig. split; [exact Hsig|].
  apply for_each_build_param_schema in Hp as [Hn Hr].
  assert (Hreq : path ["function"; "parameters"; "required"] (Tool_dict t)
                 = Some (VList (List.map (fun p => VStr (param_name p))
                           (filter (fun p => truth (default_eq_empty p)) sig)))).
  { simpl. do 2 f_equal.
    rewrite <- (map_map ps_name VStr), <- (map_map param_name VStr).
    f_equal. now apply required_names. }
  split; [exact Hreq|]. split; [|reflexivity].
  intros Hplain. rewrite Hreq. now rewrite filter_plain_defaults.
Qed.

Lemma descriptor_required_witness :
  Tool_init add_fn None None = Ok add_tool /\
  path ["function"; "parameters"; "required"] (Tool_dict add_tool)
  = Some (VList [VStr "a"]).
Proof.
  split; [reflexivity|].
  destruct (descriptor_required add_fn None None (t := add_tool) eq_refl)
    as (sig & Hsig & _ & Hreq & _).
  injection Hsig as <-. exact (Hreq eq_refl).
Defined.

(** ** C7 *)

(** C7, as the claim has it, fails where the callable has no documentation
    string: the description is then [None], not the empty text. *)
Lemma description_without_doc_is_none :
  Tool_init ping_fn None None = Ok ping_tool /\
  fn_doc ping_fn = None /\
  description ping_tool = None /\
  description ping_tool <> Some "" /\
  path ["function"; "description"] (Tool_dict ping_tool) = Some VNone.
Proof. repeat split; try reflexivity. discriminate. Qed.

(** C7, amended: for every callable wrapped with no explicit description,
    the tool's description is what [inspect.getdoc] gives for the callable:
    its documentation string, or [None] when it has none; the exported
    descriptor carries that same value. *)
Theorem description_defaults_to_doc (f : Callable) (name0 : option string)
        (t : Tool) :
  Tool_init f name0 None = Ok t ->
  description t = fn_doc f /\
  path ["function"; "description"] (Tool_dict t) = Some (opt_str (fn_doc f)).
Proof.
  intros H. apply Tool_init_ok in H as (sig & hints & _ & _ & _ & Hd & _).
  simpl in Hd. split; [exact Hd|]. simpl. now rewrite Hd.
Qed.

Lemma description_defaults_to_doc_witness :
  description add_tool = Some "Add two numbers." /\
  description ping_tool = None.
Proof.
  split.
  - exact (proj1 (description_defaults_to_doc add_fn None (t := add_tool) eq_refl)).
  - exact (proj1 (description_defaults_to_doc ping_fn None (t := ping_tool) eq_refl)).
Defined.

(** ** C10 *)

(** C10: an empty-string [name] or [description] is the same call as one
    without that argument; with both empty the tool is named after the
    callable and described by its documentation string. *)
Theorem empty_override_ignored (f : Callable) (name0 description0 : option string) :
  Tool_init f (Some "") description0 = Tool_init f None description0 /\
  Tool_init f name0 (Some "") = Tool_init f name0 None /\
  (forall t, Tool_init f (Some "") (Some "") = Ok t ->
             fn_name f = Ok (name t) /\ description t = fn_doc f).
Proof.
  split; [reflexivity|]. split; [reflexivity|].
  intros t H. apply Tool_init_ok in H as (sig & hints & _ & _ & Hn & Hd & _).
  simpl in Hn, Hd. auto.
Qed.

Lemma empty_override_ignored_witness :
  Tool_init add_fn (Some "") (Some "") = Ok add_tool /\
  fn_name add_fn = Ok (name add_tool) /\
  description add_tool = fn_doc add_fn.
Proof.
  split; [reflexivity|].
  exact (proj2 (proj2 (empty_override_ignored add_fn None None)) add_tool eq_refl).
Defined.

(** ** Message construction *)

Lemma get_filter_keys (V : Type) (keep : string -> bool) (k : string)
      (d : PyDict.t V) :
  keep k = true ->
  PyDict.get k (filter (fun kv => keep (fst kv)) d) = PyDict.get k d.
Proof.
  intros Hk. induction d as [|[k0 v0] d IH]; simpl; [reflexivity|].
  destruct (keep k0) eqn:E0; simpl.
  - now rewrite IH.
  - destruct (String.eqb k k0) eqn:E; [|exact IH].
    apply String.eqb_eq in E. congruence.
Qed.

(** ** C6 *)

(** C6, as the claim has it, fails: [UserMessage(content="hi", mood="glad")]
    is not rejected although [mood] is no field of the class; the message
    is built and the extra key is dropped. *)
Lemma undeclared_field_accepted :
  ~ In "mood" (declared_fields UserMessage_cls) /\
  construct refuse_str refuse_list UserMessage_cls
    [("content", VStr "hi"); ("mood", VStr "glad")]
  = Ok (UserMessage (Some "hi")) /\
  Message_dict (UserMessage (Some "hi"))
  = [("content", VStr "hi"); ("role", VStr "user")].
Proof.
  split; [|split; reflexivity].
  simpl. intros [H|[H|H]]; try discriminate; contradiction.
Qed.

(** C6, amended: constructing a message of any class looks at the declared
    fields of that class only; keyword arguments that name no declared
    field are ignored, so the outcome (the message, or the validation
    error) is the one of the same call without them. *)
Theorem undeclared_fields_ignored
        (coerce_str : value -> option string)
        (coerce_list : value -> option (list value))
        (cls : message_class) (data : PyDict.t value) :
  construct coerce_str coerce_list cls data
  = construct coerce_str coerce_list cls
      (filter (fun kv => declared cls (fst kv)) data).
Proof.
  unfold construct, validate_content, validate_role, validate_str,
    validate_tool_calls.
  destruct cls; rewrite ?get_filter_keys by reflexivity; reflexivity.
Qed.

(** ** C8 *)

(** C8: a [ToolMessage] built without [tool_call_id] fails with a
    ValidationError that lists that field; built with
    [tool_call_id="call_1", name="search"] it succeeds, and its [dict()]
    has both fields and the role [tool]. *)
Theorem tool_message_requires_tool_call_id
        (coerce_str : value -> option string)
        (coerce_list : value -> option (list value)) :
  (forall data : PyDict.t value,
      PyDict.get "tool_call_id" data = None ->
      exists fields,
        construct coerce_str coerce_list ToolMessage_cls data
        = Raise (ValidationError fields) /\
        In "tool_call_id" fields) /\
  (exists m,
      construct coerce_str coerce_list ToolMessage_cls
        [("tool_call_id", VStr "call_1"); ("name", VStr "search")] = Ok m /\
      PyDict.get "tool_call_id" (Message_dict m) = Some (VStr "call_1") /\
      PyDict.get "name" (Message_dict m) = Some (VStr "search") /\
      PyDict.get "role" (Message_dict m) = Some (VStr "tool")).
Proof.
  split.
  - intros data Hid. unfold construct.
    assert (Hv : validate_str coerce_str "tool_call_id" data = Invalid)
      by (unfold validate_str; now rewrite Hid).
    rewrite Hv.
    exists (bad "content" (validate_content coerce_str data)
            ++ bad "role" (validate_role "tool" data)
            ++ bad "tool_call_id" (@Invalid string)
            ++ bad "name" (validate_str coerce_str "name" data)).
    split.
    + destruct (validate_content coerce_str data), (validate_role "tool" data);
        reflexivity.
    + apply in_or_app. right. apply in_or_app. right. now left.
  - exists (ToolMessage (Some "") "call_1" "search"). repeat split.
Qed.

Lemma tool_message_requires_tool_call_id_witness :
  exists fields,
    construct refuse_str refuse_list ToolMessage_cls [("name", VStr "search")]
    = Raise (ValidationError fields) /\
    In "tool_call_id" fields.
Proof.
  apply (proj1 (tool_message_requires_tool_call_id refuse_str refuse_list)).
  reflexivity.
Defined.

(** ** The tool registry *)

Lemma tools_after_registrations (ts : list Tool) (self : LLM) :
  tools (fold_left register_tool ts self)
  = fold_left (fun d t => PyDict.set (name t) t d) ts (tools self).
Proof.
  revert self. induction ts as [|t ts IH]; intros self; simpl; [reflexivity|].
  now rewrite IH.
Qed.

(** X18: a client constructed with a list of tools is the client
    constructed without tools on which they are then registered one by
    one, in the order of the list. *)
Lemma LLM_init_registers (m : string) (temp : float) (ts : list Tool) :
  LLM_init m temp (Some ts) = fold_left register_tool ts (LLM_init m temp None).
Proof.
  assert (H : forall self,
             fold_left register_tool ts self
             = {| model := model self; temperature := temperature self;
                  tools := fold_left (fun d t => PyDict.set (name t) t d) ts
                             (tools self) |}).
  { induction ts as [|t ts IH]; intros [m0 t0 d0]; simpl; [reflexivity|].
    now rewrite IH. }
  now rewrite H.
Qed.


(** ** C9 *)

(** C9: when two tools have the same name, registering the second after
    the first leaves the registry as registering the second alone leaves
    it: the name maps to the second tool, the size is the one after the
    first registration, and on an empty registry it is 1.  [register_tool]
    has no failing case. *)
Theorem register_same_name (self : LLM) (t1 t2 : Tool) :
  name t1 = name t2 ->
  let once := register_tool self t1 in
  let twice := register_tool once t2 in
  tools twice = tools (register_tool self t2) /\
  PyDict.get (name t1) (tools twice) = Some t2 /\
  PyDict.len (tools twice) = PyDict.len (tools once) /\
  (tools self = [] ->
   tools twice = [(name t2, t2)] /\ PyDict.len (tools twice) = 1%nat).
Proof.
  intros Hn. simpl. rewrite Hn. repeat split.
  - apply set_set_same.
  - apply get_set_same.
  - apply len_set_present with (v' := t1). apply get_set_same.
  - rewrite H. simpl. now rewrite String.eqb_refl.
  - rewrite H. simpl. now rewrite String.eqb_refl.
Qed.

Lemma register_same_name_witness :
  tools (register_tool (register_tool fresh_llm search_v1) search_v2)
  = [("search", search_v2)].
Proof.
  exact (proj1 (proj2 (proj2 (proj2
           (register_same_name fresh_llm search_v1 search_v2 eq_refl))) eq_refl)).
Defined.

(** ** C4 *)



(** ** Input conversion *)

Lemma all_messages (ms : list Message) :
  forallb is_message (List.map InMessage ms) = true.
Proof. induction ms; simpl; auto. Qed.

Lemma messages_of_messages (ms : list Message) :
  messages_of (List.map InMessage ms) = ms.
Proof. induction ms as [|m ms IH]; simpl; [reflexivity | now rewrite IH]. Qed.

(** A list that passes the test of line 59 is a list of messages. *)
Lemma all_messages_inv (xs : list input) :
  forallb is_message xs = true -> xs = List.map InMessage (messages_of xs).
Proof.
  induction xs as [|x xs IH]; simpl; [reflexivity|].
  destruct x; simpl; try discriminate.
  intros H. now rewrite <- IH.
Qed.

Lemma append_assoc (a b c : string) :
  ((a ++ b) ++ c = a ++ (b ++ c))%string.
Proof. induction a as [|ch a IH]; simpl; [reflexivity | now rewrite IH]. Qed.

(** The text of the error of line 62. *)
Lemma invalid_input_text (i : input) :
  ("Invalid input type " ++ type_repr i ++ "."
   = "Invalid input type <class '" ++ type_name_of i ++ "'>.")%string.
Proof.
  unfold type_repr.
  rewrite (append_assoc "<class '" (type_name_of i ++ "'>") ".").
  rewrite (append_assoc (type_name_of i) "'>" ".").
  reflexivity.
Qed.

(** ** C5 *)

(** C5: text becomes a one-item list holding a [UserMessage] with that
    text as content; a message becomes the one-item list holding it; a
    list of messages is returned as it is; every other input raises a
    ValueError whose text carries the type of the input. *)
Theorem convert_input_cases
        (coerce_str : value -> option string)
        (coerce_list : value -> option (list value)) :
  (forall s : string,
      _convert_input coerce_str coerce_list (InStr s)
      = Ok [UserMessage (Some s)]) /\
  (forall m : Message,
      _convert_input coerce_str coerce_list (InMessage m) = Ok [m]) /\
  (forall ms : list Message,
      _convert_input coerce_str coerce_list (InList (List.map InMessage ms))
      = Ok ms) /\
  (forall i : input,
      accepted i = false ->
      _convert_input coerce_str coerce_list i
      = Raise (ValueError
                 ("Invalid input type <class '" ++ type_name_of i ++ "'>.")%string)).
Proof.
  repeat split.
  - intros ms. simpl. now rewrite all_messages, messages_of_messages.
  - intros i Hi. rewrite <- invalid_input_text.
    destruct i as [s|m|xs|tn]; simpl in Hi; try discriminate.
    + unfold _convert_input. now rewrite Hi.
    + reflexivity.
Qed.

Lemma convert_input_cases_witness :
  _convert_input refuse_str refuse_list (InOther "int")
  = Raise (ValueError "Invalid input type <class 'int'>.") /\
  _convert_input refuse_str refuse_list
    (InList [InMessage (UserMessage (Some "hi")); InStr "there"])
  = Raise (ValueError "Invalid input type <class 'list'>.").
Proof.
  destruct (convert_input_cases refuse_str refuse_list) as (_ & _ & _ & H).
  split; [exact (H (InOther "int") eq_refl)|].
  exact (H (InList [InMessage (UserMessage (Some "hi")); InStr "there"]) eq_refl).
Defined.

(** * Further properties *)

(** ** Schema inference *)

(** Induction along the calls of [_infer_json_schema_type]: one case per
    branch of the source, with the property of the recursive call at hand. *)
Lemma infer_cases (P : value -> result value -> Prop) :
  (forall args,
      P (VAlias OLiteral args)
        (Ok (VDict [("type", VStr "string"); ("enum", VList args)]))) ->
  (forall args t,
      non_none args = [t] -> P t (_infer_json_schema_type t) ->
      P (VAlias OUnion args) (_infer_json_schema_type t)) ->
  (forall args,
      List.length (non_none args) <> 1%nat ->
      P (VAlias OUnion args) (Ok string_schema)) ->
  (forall args,
      P (hd (VClass CStr) args) (_infer_json_schema_type (hd (VClass CStr) args)) ->
      P (VAlias OList args)
        (items <- _infer_json_schema_type (hd (VClass CStr) args) ;;
         Ok (VDict [("type", VStr "array"); ("items", items)]))) ->
  P (VAlias ODict [])
    (Ok (VDict [("type", VStr "object"); ("additionalProperties", string_schema)])) ->
  (forall k, P (VAlias ODict [k]) (Raise IndexError)) ->
  (forall k v rest,
      P v (_infer_json_schema_type v) ->
      P (VAlias ODict (k :: v :: rest))
        (ap <- _infer_json_schema_type v ;;
         Ok (VDict [("type", VStr "object"); ("additionalProperties", ap)]))) ->
  (forall typ,
      match get_origin typ with
      | Some OLiteral | Some OUnion | Some OList | Some ODict => False
      | _ => True
      end ->
      P typ (primitive_schema typ)) ->
  forall typ, P typ (_infer_json_schema_type typ).
Proof.
  intros Hlit Hopt Hunion Hlist Hdict0 Hdict1 Hdict2 Hprim.
  induction typ as [typ IH] using value_alias_ind.
  rewrite Forall_forall in IH.
  destruct (get_origin typ) as [o|] eqn:Ho.
  2:{ rewrite infer_fallthrough by now rewrite Ho. apply Hprim. now rewrite Ho. }
  destruct typ as [| | | | | | | |o' args]; try discriminate.
  simpl in Ho. injection Ho as ->. simpl in IH.
  destruct o.
  - apply Hlit.
  - rewrite infer_union.
    destruct (non_none args) as [|t [|t' rest]] eqn:Hnn.
    + apply Hunion. rewrite Hnn. discriminate.
    + apply Hopt; [exact Hnn|]. apply IH. apply non_none_incl. rewrite Hnn. now left.
    + apply Hunion. rewrite Hnn. discriminate.
  - rewrite infer_list. apply Hlist.
    destruct args as [|a rest]; simpl.
    + apply (Hprim (VClass CStr)). exact I.
    + apply IH. now left.
  - destruct args as [|k [|v rest]].
    + apply Hdict0.
    + apply Hdict1.
    + rewrite infer_dict. apply Hdict2. apply IH. right. now left.
  - rewrite infer_fallthrough by exact I. apply Hprim. exact I.
Qed.

(** X3: a schema the inference returns is a dict whose first key is
    [type], with one of the six JSON Schema type names as its value. *)
Theorem infer_schema_has_type (typ schema : value) :
  _infer_json_schema_type typ = Ok schema ->
  exists ty rest,
    schema = VDict (("type", VStr ty) :: rest) /\ In ty json_type_names.
Proof.
  revert schema. pattern typ, (_infer_json_schema_type typ). apply infer_cases;
    clear typ; unfold json_type_names.
  - intros args schema H. injection H as <-. eexists _, _. split; [reflexivity|].
    simpl. auto.
  - intros args t _ IH schema H. now apply IH.
  - intros args _ schema H. injection H as <-. eexists _, _. split; [reflexivity|].
    simpl. auto.
  - intros args _ schema H.
    destruct (_infer_json_schema_type (hd (VClass CStr) args)) as [s|e'];
      simpl in H; [|discriminate].
    injection H as <-. eexists _, _. split; [reflexivity|]. simpl. auto 10.
  - intros schema H. injection H as <-. eexists _, _. split; [reflexivity|].
    simpl. auto 10.
  - discriminate.
  - intros k v rest _ schema H.
    destruct (_infer_json_schema_type v) as [s|e']; simpl in H; [|discriminate].
    injection H as <-. eexists _, _. split; [reflexivity|]. simpl. auto 10.
  - intros typ _ schema H. unfold primitive_schema in H.
    destruct (unhashable typ); [discriminate|]. injection H as <-.
    eexists _, _. split; [reflexivity|].
    destruct typ as [| | | | | | |c|o args]; simpl; auto.
    destruct c; simpl; auto 10.
Qed.

Lemma infer_schema_has_type_witness :
  exists ty rest,
    VDict [("type", VStr "array"); ("items", string_schema)]
    = VDict (("type", VStr ty) :: rest) /\ In ty json_type_names.
Proof. exact (infer_schema_has_type list_optional_str eq_refl). Defined.

(** X4: of a [list] alias only the first argument is read, of a [dict]
    alias only the second: the key type of a mapping and any further
    argument leave the schema as it is. *)
Theorem infer_reads_one_argument (a k k' v : value) (rest rest' : list value) :
  _infer_json_schema_type (VAlias OList (a :: rest))
  = _infer_json_schema_type (VAlias OList (a :: rest')) /\
  _infer_json_schema_type (VAlias ODict (k :: v :: rest))
  = _infer_json_schema_type (VAlias ODict (k' :: v :: rest')).
Proof. split; reflexivity. Qed.

(** ** Tool construction *)

Lemma for_each_Forall2 (A B : Type) (f : A -> result B) (xs : list A)
      (ys : list B) :
  for_each f xs = Ok ys <-> Forall2 (fun x y => f x = Ok y) xs ys.
Proof.
  revert ys. induction xs as [|x xs IH]; intros ys; simpl.
  - split.
    + intros H. injection H as <-. constructor.
    + intros H. inversion H. reflexivity.
  - split.
    + intros H. destruct (f x) as [y|e] eqn:Hx; simpl in H; [|discriminate].
      destruct (for_each f xs) as [ys'|e] eqn:Hxs; simpl in H; [|discriminate].
      injection H as <-. constructor; [exact Hx|]. now apply IH.
    + intros H. inversion H as [|x0 y xs0 ys' Hx Hxs]; subst.
      rewrite Hx. simpl. apply IH in Hxs. now rewrite Hxs.
Qed.

Lemma for_each_is_ok (A B : Type) (f : A -> result B) (xs : list A) :
  is_ok (for_each f xs) = forallb (fun x => is_ok (f x)) xs.
Proof.
  induction xs as [|x xs IH]; simpl; [reflexivity|].
  destruct (f x); simpl; [|reflexivity].
  rewrite <- IH. now destruct (for_each f xs).
Qed.

Lemma for_each_first_error (A B : Type) (f : A -> result B)
      (before after : list A) (x : A) (e : exn) :
  forallb (fun x => is_ok (f x)) before = true ->
  f x = Raise e ->
  for_each f (before ++ x :: after) = Raise e.
Proof.
  intros Hb Hx. induction before as [|b before IH]; simpl in *.
  - now rewrite Hx.
  - apply andb_true_iff in Hb as [Hb1 Hb2].
    destruct (f b); [|discriminate]. simpl. now rewrite IH.
Qed.

Lemma build_param_schema_eq (hints : PyDict.t value) (param : PyParameter) :
  _build_param_schema hints param
  = (schema <- _infer_json_schema_type (param_type hints param) ;;
     Ok {| ps_name := param_name param;
           ps_schema := schema;
           ps_required := default_eq_empty param |}).
Proof. reflexivity. Qed.

(** X5: a parameter without annotation gets the schema
    [{"type": "string"}], and its [required] is what
    [param.default == Parameter.empty] evaluates to: [True] without a
    default, [False] with a default of a builtin type, and the answer of
    the default's own [__eq__] otherwise; building its entry cannot fail. *)
Theorem unannotated_parameter (hints : PyDict.t value) (param : PyParameter) :
  PyDict.get (param_name param) hints = None ->
  _build_param_schema hints param
  = Ok {| ps_name := param_name param;
          ps_schema := string_schema;
          ps_required := default_eq_empty param |}.
Proof.
  intros H. rewrite build_param_schema_eq. unfold param_type. now rewrite H.
Qed.

Lemma unannotated_parameter_witness :
  _build_param_schema [("key", VClass CInt)]
    {| param_name := "limit"; param_default := Plain (VInt 10) |}
  = Ok {| ps_name := "limit"; ps_schema := string_schema; ps_required := VBool false |}.
Proof.
  exact (unannotated_parameter [("key", VClass CInt)]
           {| param_name := "limit"; param_default := Plain (VInt 10) |} eq_refl).
Defined.

(** What a tool that was built holds. *)
Lemma Tool_init_inv
        (f : Callable) (name0 description0 : option string) (t : Tool) :
  Tool_init f name0 description0 = Ok t ->
  func t = f /\
  fn_signature f = Ok (signature t) /\
  fn_type_hints f = Ok (type_hints t) /\
  Forall2 (fun param entry =>
             ps_name entry = param_name param /\
             ps_required entry = default_eq_empty param /\
             _infer_json_schema_type (param_type (type_hints t) param)
             = Ok (ps_schema entry))
          (signature t) (parameters t).
Proof.
  unfold Tool_init. intros H.
  destruct (if truthy name0 then _ else _) as [nm|e]; simpl in H; [|discriminate].
  destruct (fn_signature f) as [sig|e]; simpl in H; [|discriminate].
  destruct (fn_type_hints f) as [hints|e]; simpl in H; [|discriminate].
  destruct (for_each _ sig) as [params|e] eqn:Hp; simpl in H; [|discriminate].
  injection H as <-. simpl. repeat split.
  apply for_each_Forall2 in Hp.
  induction Hp as [|p entry sig params Hp Hrest IH]; constructor; [|exact IH].
  rewrite build_param_schema_eq in Hp.
  destruct (_infer_json_schema_type (param_type hints p)) as [schema|e];
    simpl in Hp; [|discriminate].
  injection Hp as <-. auto.
Qed.

Lemma entries_names (sig : list PyParameter) (params : list ParamSchema)
      (hints : PyDict.t value) :
  Forall2 (fun param entry =>
             ps_name entry = param_name param /\
             ps_required entry = default_eq_empty param /\
             _infer_json_schema_type (param_type hints param)
             = Ok (ps_schema entry))
          sig params ->
  List.map ps_name params = List.map param_name sig.
Proof.
  induction 1 as [|p e sig params (Hn & _) _ IH]; simpl; [reflexivity|].
  now rewrite Hn, IH.
Qed.

(** X6: a tool that was built holds the callable it was given and that
    callable's signature, and has one entry per parameter of the
    signature, in the signature's order: the parameter's name, what
    [param.default == Parameter.empty] evaluates to, and the schema
    inferred from its type hint ([str] when there is none). *)
Theorem tool_parameters_follow_signature
        (f : Callable) (name0 description0 : option string) (t : Tool) :
  Tool_init f name0 description0 = Ok t ->
  func t = f /\
  fn_signature f = Ok (signature t) /\
  fn_type_hints f = Ok (type_hints t) /\
  Forall2 (fun param entry =>
             ps_name entry = param_name param /\
             ps_required entry = default_eq_empty param /\
             _infer_json_schema_type (param_type (type_hints t) param)
             = Ok (ps_schema entry))
          (signature t) (parameters t).
Proof. apply Tool_init_inv. Qed.

Lemma tool_parameters_follow_signature_witness :
  func lookup_tool = lookup_fn /\
  List.length (parameters lookup_tool) = 3%nat.
Proof.
  destruct (tool_parameters_follow_signature lookup_fn None None
              (t := lookup_tool) eq_refl) as (Hf & _ & _ & Hp).
  split; [exact Hf|].
  apply Forall2_length in Hp. rewrite <- Hp. reflexivity.
Defined.

(** X7: building a tool succeeds exactly when a name is at hand (a
    non-empty [name] argument or the callable's own name), the signature
    and the type hints resolve, and every parameter's type gets a schema. *)
Theorem Tool_init_succeeds_iff
        (f : Callable) (name0 description0 : option string) :
  is_ok (Tool_init f name0 description0) = true <->
  (truthy name0 = true \/ is_ok (fn_name f) = true) /\
  exists sig hints,
    fn_signature f = Ok sig /\ fn_type_hints f = Ok hints /\
    forall param, In param sig ->
      is_ok (_infer_json_schema_type (param_type hints param)) = true.
Proof.
  assert (Hb : forall hints sig,
             is_ok (for_each (_build_param_schema hints) sig) = true <->
             forall param, In param sig ->
               is_ok (_infer_json_schema_type (param_type hints param)) = true).
  { intros hints sig. rewrite for_each_is_ok, forallb_forall.
    split; intros H p Hp; specialize (H p Hp);
      rewrite build_param_schema_eq in *;
      destruct (_infer_json_schema_type (param_type hints p)); auto. }
  unfold Tool_init. split.
  - intros H.
    destruct (truthy name0) eqn:Hn.
    + simpl in H. split; [now left|].
      destruct (fn_signature f) as [sig|e]; simpl in H; [|discriminate].
      destruct (fn_type_hints f) as [hints|e]; simpl in H; [|discriminate].
      exists sig, hints. repeat split. apply Hb.
      destruct (for_each _ sig); [reflexivity | discriminate].
    + destruct (fn_name f) as [nm|e]; simpl in H; [|discriminate].
      split; [now right|].
      destruct (fn_signature f) as [sig|e]; simpl in H; [|discriminate].
      destruct (fn_type_hints f) as [hints|e]; simpl in H; [|discriminate].
      exists sig, hints. repeat split. apply Hb.
      destruct (for_each _ sig); [reflexivity | discriminate].
  - intros [Hn (sig & hints & Hs & Hh & Hp)].
    rewrite Hs, Hh. apply Hb in Hp.
    assert (Hnm : exists nm,
               (if truthy name0 then Ok (unwrap name0) else fn_name f) = Ok nm).
    { destruct (truthy name0); [eauto|].
      destruct Hn as [Hn|Hn]; [discriminate|].
      destruct (fn_name f); [eauto | discriminate]. }
    destruct Hnm as [nm ->]. simpl.
    destruct (for_each _ sig); [reflexivity | discriminate].
Qed.

(** X8: when the name, the signature and the type hints are at hand and
    some parameter's type has no schema, building the tool raises the
    exception of the first such parameter. *)
Theorem Tool_init_first_bad_parameter
        (f : Callable) (name0 description0 : option string)
        (hints : PyDict.t value) (before after : list PyParameter)
        (param : PyParameter) (e : exn) :
  (truthy name0 = true \/ is_ok (fn_name f) = true) ->
  fn_signature f = Ok (before ++ param :: after) ->
  fn_type_hints f = Ok hints ->
  (forall p, In p before ->
     is_ok (_infer_json_schema_type (param_type hints p)) = true) ->
  _infer_json_schema_type (param_type hints param) = Raise e ->
  Tool_init f name0 description0 = Raise e.
Proof.
  intros Hn Hs Hh Hb He. unfold Tool_init. rewrite Hs, Hh.
  assert (Hfe : for_each (_build_param_schema hints) (before ++ param :: after)
                = Raise e).
  { apply for_each_first_error.
    - apply forallb_forall. intros p Hp. specialize (Hb p Hp).
      rewrite build_param_schema_eq.
      destruct (_infer_json_schema_type (param_type hints p)); auto.
    - rewrite build_param_schema_eq. now rewrite He. }
  destruct (truthy name0); simpl.
  - now rewrite Hfe.
  - destruct Hn as [Hn|Hn]; [discriminate|].
    destruct (fn_name f); [|discriminate]. simpl. now rewrite Hfe.
Qed.

Lemma Tool_init_first_bad_parameter_witness :
  Tool_init broken_fn None None = Raise IndexError.
Proof.
  apply (@Tool_init_first_bad_parameter broken_fn None None
           [("x", VClass CInt); ("y", dict_int); ("z", VList [VClass CInt])]
           [ {| param_name := "x"; param_default := Empty |} ]
           [ {| param_name := "z"; param_default := Empty |} ]
           {| param_name := "y"; param_default := Empty |}).
  - right. reflexivity.
  - reflexivity.
  - reflexivity.
  - intros p [<-|[]]. reflexivity.
  - reflexivity.
Defined.

(** ** The exported descriptor *)

Lemma comprehension_distinct (A V : Type) (key : A -> string) (val : A -> V)
      (xs : list A) :
  NoDup (List.map key xs) ->
  PyDict.comprehension key val xs = List.map (fun x => (key x, val x)) xs.
Proof.
  intros H. unfold PyDict.comprehension.
  now rewrite (fold_set_distinct key val xs []).
Qed.

(** A key written by a comprehension, or there before it, is there after. *)
Lemma fold_set_get (A V : Type) (key : A -> string) (val : A -> V)
      (xs : list A) (d : PyDict.t V) (k : string) :
  In k (List.map key xs) \/ (exists v, PyDict.get k d = Some v) ->
  exists v, PyDict.get k (fold_left (fun d x => PyDict.set (key x) (val x) d) xs d)
            = Some v.
Proof.
  revert d. induction xs as [|x xs IH]; intros d H; simpl in *.
  - destruct H as [[]|H]. exact H.
  - apply IH. destruct (String.eqb_spec k (key x)) as [->|Hne].
    + right. exists (val x). apply get_set_same.
    + destruct H as [[H|H]|[v H]].
      * congruence.
      * now left.
      * right. exists v. now rewrite get_set_other.
Qed.

(** X9: when the parameters of the signature have distinct names, as
    those of a Python function have, [properties] in the descriptor lists
    the parameters in the signature's order, each with the schema of its
    entry in [Tool.parameters]. *)
Theorem descriptor_properties
        (f : Callable) (name0 description0 : option string) (t : Tool) :
  Tool_init f name0 description0 = Ok t ->
  NoDup (List.map param_name (signature t)) ->
  exists props,
    path ["function"; "parameters"; "properties"] (Tool_dict t)
    = Some (VDict props) /\
    PyDict.keys props = List.map param_name (signature t) /\
    PyDict.values props = List.map ps_schema (parameters t).
Proof.
  intros H Hnd.
  apply Tool_init_inv in H as (_ & _ & _ & Hp).
  apply entries_names in Hp as Hn.
  exists (List.map (fun e => (ps_name e, ps_schema e)) (parameters t)).
  split; [|split].
  - simpl. rewrite comprehension_distinct; [reflexivity|]. now rewrite Hn.
  - unfold PyDict.keys. rewrite map_map. simpl. exact Hn.
  - unfold PyDict.values. now rewrite map_map.
Qed.

Lemma descriptor_properties_witness :
  exists props,
    path ["function"; "parameters"; "properties"] (Tool_dict lookup_tool)
    = Some (VDict props) /\
    PyDict.keys props = ["key"; "table"; "limit"] /\
    PyDict.values props = List.map ps_schema (parameters lookup_tool).
Proof.
  apply (descriptor_properties lookup_fn None None (t := lookup_tool) eq_refl).
  repeat constructor; simpl; intuition discriminate.
Defined.

(** X10: in the descriptor of any tool, every name listed under
    [required] is a key of [properties]. *)
Theorem required_are_properties (t : Tool) :
  exists required props,
    path ["function"; "parameters"; "required"] (Tool_dict t)
    = Some (VList (List.map VStr required)) /\
    path ["function"; "parameters"; "properties"] (Tool_dict t)
    = Some (VDict props) /\
    forall n, In n required -> exists schema, PyDict.get n props = Some schema.
Proof.
  exists (List.map ps_name
            (filter (fun param => truth (ps_required param)) (parameters t))),
         (PyDict.comprehension ps_name ps_schema (parameters t)).
  split; [|split].
  - simpl. now rewrite map_map.
  - reflexivity.
  - intros n Hn. unfold PyDict.comprehension. apply fold_set_get. left.
    apply in_map_iff in Hn as (e & <- & He).
    apply filter_In in He as [He _]. now apply in_map.
Qed.

Lemma required_are_properties_witness :
  exists schema,
    PyDict.get "key"
      (PyDict.comprehension ps_name ps_schema (parameters lookup_tool))
    = Some schema.
Proof.
  destruct (required_are_properties lookup_tool) as (required & props & Hr & Hp & H).
  injection Hp as <-. apply H.
  simpl in Hr. injection Hr as Hr.
  destruct required as [|r required]; [discriminate|].
  injection Hr as <- _. now left.
Defined.

(** X11: the decorator builds the tool that the class builds.  Given a
    function, or any callable that is true ([@tool]), it returns
    [Tool(f, name, description)], which for [@tool] alone is
    [Tool.from_func(f)]; given no function, or a callable that is false,
    it returns a decorator that maps every [g] to
    [Tool(g, name, description)]; a tool it built wraps [f] itself. *)
Theorem tool_decorator (f : Callable) (name0 description0 : option string) :
  (fn_truthy f = true ->
   tool (Some f) name0 description0 = Wrapped (Tool_init f name0 description0) /\
   tool (Some f) None None = Wrapped (from_func f)) /\
  (forall func, func = None \/ (func = Some f /\ fn_truthy f = false) ->
     exists wrapper,
       tool func name0 description0 = Wrapper wrapper /\
       forall g, wrapper g = Tool_init g name0 description0) /\
  (forall t, tool (Some f) name0 description0 = Wrapped (Ok t) -> func t = f).
Proof.
  unfold tool. split; [|split].
  - intros ->. split; reflexivity.
  - intros func [->|[-> ->]]; eexists; split; reflexivity.
  - intros t H. destruct (fn_truthy f); [|discriminate]. injection H as H.
    now apply Tool_init_inv in H as (Hf & _).
Qed.

Lemma tool_decorator_witness :
  tool (Some add_fn) None None = Wrapped (from_func add_fn) /\
  (exists wrapper,
      tool (Some quiet_fn) (Some "hush") None = Wrapper wrapper /\
      forall g, wrapper g = Tool_init g (Some "hush") None) /\
  func add_tool = add_fn.
Proof.
  split; [|split].
  - exact (proj2 (proj1 (tool_decorator add_fn None None) eq_refl)).
  - apply (proj1 (proj2 (tool_decorator quiet_fn (Some "hush") None))).
    right. split; reflexivity.
  - exact (proj2 (proj2 (tool_decorator add_fn None None)) add_tool eq_refl).
Defined.

(** ** Messages *)

Section MessageFacts.
Variable coerce_str : value -> option string.
Variable coerce_list : value -> option (list value).

(** A message that was built has passed the validator of each field of
    its class. *)
Lemma construct_ok (cls : message_class) (data : PyDict.t value) (m : Message) :
  construct coerce_str coerce_list cls data = Ok m ->
  class_of m = cls /\
  validate_content coerce_str data = Valid (content_of m) /\
  (forall lit, role_literal cls = Some lit -> validate_role lit data = Valid lit).
Proof.
  unfold construct. intros H.
  destruct cls;
    destruct (validate_content coerce_str data) as [c|]; try discriminate;
    repeat match type of H with
      | context [match ?r with Valid _ => _ | Invalid => _ end] =>
          let E := fresh "E" in destruct r eqn:E; try discriminate
      end;
    injection H as <-; (split; [reflexivity|]); (split; [reflexivity|]);
    intros lit Hl; simpl in Hl; try discriminate; injection Hl as <-.
  - unfold validate_role in *. destruct (PyDict.get "role" data) as [[]|];
      try discriminate; auto. destruct (String.eqb s "system"); [auto|discriminate].
  - unfold validate_role in *. destruct (PyDict.get "role" data) as [[]|];
      try discriminate; auto. destruct (String.eqb s "user"); [auto|discriminate].
  - unfold validate_role in *. destruct (PyDict.get "role" data) as [[]|];
      try discriminate; auto. destruct (String.eqb s "tool"); [auto|discriminate].
  - unfold validate_role in *. destruct (PyDict.get "role" data) as [[]|];
      try discriminate; auto. destruct (String.eqb s "assistant"); [auto|discriminate].
Qed.

(** X12: a message built from the dict of a message is that message:
    [type(m)] called on the items of [m.dict()] gives [m] back. *)
Theorem dict_then_construct (m : Message) :
  construct coerce_str coerce_list (class_of m) (Message_dict m) = Ok m.
Proof.
  destruct m as [c|c|c|c i n|c tc]; destruct c as [s|]; try reflexivity;
    destruct tc; reflexivity.
Qed.

(** X14: a class with a [role] field accepts no other role than its own:
    any other value given for [role] is a ValidationError on that field. *)
Theorem role_mismatch_rejected (cls : message_class) (data : PyDict.t value)
        (lit : string) (v : value) :
  role_literal cls = Some lit ->
  PyDict.get "role" data = Some v ->
  v <> VStr lit ->
  exists fields,
    construct coerce_str coerce_list cls data = Raise (ValidationError fields) /\ In "role" fields.
Proof.
  intros Hl Hr Hv.
  assert (Hbad : validate_role lit data = Invalid).
  { unfold validate_role. rewrite Hr. destruct v; try reflexivity.
    destruct (String.eqb_spec s lit); [congruence | reflexivity]. }
  unfold construct.
  destruct cls; simpl in Hl; try discriminate; injection Hl as <-; rewrite Hbad;
    destruct (validate_content coerce_str data); simpl;
    eexists; (split; [reflexivity|]); simpl; auto.
Qed.

(** X16: the content of a message that was built is the empty text when
    no [content] was given, [None] when [None] was given, and the text
    given otherwise. *)
Theorem content_of_constructed (cls : message_class) (data : PyDict.t value)
        (m : Message) :
  construct coerce_str coerce_list cls data = Ok m ->
  (PyDict.get "content" data = None -> content_of m = Some "") /\
  (PyDict.get "content" data = Some VNone -> content_of m = None) /\
  (forall s, PyDict.get "content" data = Some (VStr s) -> content_of m = Some s).
Proof.
  intros H. apply construct_ok in H as (_ & Hc & _).
  unfold validate_content in Hc.
  repeat split; [intros E | intros E | intros s E]; rewrite E in Hc;
    now injection Hc as <-.
Qed.

(** X17: a construction that fails raises a ValidationError, which lists
    at least one field and only fields declared for the class. *)
Theorem construct_raises_validation_error
        (cls : message_class) (data : PyDict.t value) (e : exn) :
  construct coerce_str coerce_list cls data = Raise e ->
  exists fields,
    e = ValidationError fields /\ fields <> [] /\
    incl fields (declared_fields cls).
Proof.
  unfold construct. intros H.
  destruct cls;
    repeat match type of H with
      | context [validate_content ?a ?b] => destruct (validate_content a b)
      | context [validate_role ?a ?b] => destruct (validate_role a b)
      | context [validate_str ?a ?b ?c] => destruct (validate_str a b c)
      | context [validate_tool_calls ?a ?b] => destruct (validate_tool_calls a b)
      end;
    try discriminate; injection H as <-;
    eexists; (split; [reflexivity|]); simpl;
    (split; [discriminate|]);
    intros x Hx; simpl in *; intuition.
Qed.

End MessageFacts.

Lemma role_mismatch_rejected_witness :
  exists fields,
    construct refuse_str refuse_list UserMessage_cls
      [("content", VStr "hi"); ("role", VStr "system")]
    = Raise (ValidationError fields) /\ In "role" fields.
Proof.
  apply (@role_mismatch_rejected refuse_str refuse_list UserMessage_cls
           [("content", VStr "hi"); ("role", VStr "system")]
           "user" (VStr "system")).
  - reflexivity.
  - reflexivity.
  - discriminate.
Defined.

Lemma content_of_constructed_witness :
  content_of (SystemMessage (Some "")) = Some "".
Proof.
  exact (proj1 (@content_of_constructed refuse_str refuse_list SystemMessage_cls
                  [("role", VStr "system")] (SystemMessage (Some "")) eq_refl)
               eq_refl).
Defined.

Lemma construct_raises_validation_error_witness :
  exists fields,
    ValidationError ["content"; "tool_call_id"; "name"] = ValidationError fields /\
    fields <> [] /\ incl fields (declared_fields ToolMessage_cls).
Proof.
  exact (@construct_raises_validation_error refuse_str refuse_list ToolMessage_cls
           [("content", VInt 3)] _ eq_refl).
Defined.

(** ** The client *)

Lemma registry_ok_set (d : PyDict.t Tool) (t : Tool) :
  registry_ok d -> registry_ok (PyDict.set (name t) t d).
Proof.
  intros [Hnd Hall]. split.
  - destruct (PyDict.get (name t) d) as [t0|] eqn:E.
    + now rewrite (keys_set_present _ t _ E).
    + rewrite (set_absent _ t _ E), keys_app. simpl.
      apply get_absent_iff in E.
      clear Hall. induction (PyDict.keys d) as [|k ks IH]; simpl.
      * constructor; [intros []|constructor].
      * inversion Hnd as [|? ? Hk Hks]; subst. constructor.
        -- intros Hin. apply in_app_or in Hin as [Hin|[Hin|[]]]; [tauto|].
           apply E. now left.
        -- apply IH; [exact Hks|]. intros Hin. apply E. now right.
  - clear Hnd. induction d as [|[k0 t0] d IH]; simpl.
    + constructor; [reflexivity|constructor].
    + inversion Hall as [|? ? H0 Hd]; subst.
      destruct (String.eqb_spec (name t) k0) as [Heq|Hne]; constructor; auto.
Qed.

Lemma registry_ok_fold (ts : list Tool) (d : PyDict.t Tool) :
  registry_ok d ->
  registry_ok (fold_left (fun d t => PyDict.set (name t) t d) ts d).
Proof.
  revert d. induction ts as [|t ts IH]; intros d H; simpl; [exact H|].
  apply IH. now apply registry_ok_set.
Qed.

Lemma registry_ok_lookup (d : PyDict.t Tool) (k : string) (t : Tool) :
  registry_ok d -> In (k, t) d ->
  k = name t /\ PyDict.get (name t) d = Some t.
Proof.
  intros [Hnd Hall] Hin.
  assert (Hk : k = name t).
  { rewrite Forall_forall in Hall. exact (Hall _ Hin). }
  split; [exact Hk|]. subst k. clear Hall.
  induction d as [|[k0 t0] d IH]; simpl in *; [contradiction|].
  inversion Hnd as [|? ? Hk0 Hd]; subst.
  destruct Hin as [Heq|Hin].
  - injection Heq as -> ->. now rewrite String.eqb_refl.
  - destruct (String.eqb_spec (name t) k0) as [<-|Hne]; [|now apply IH].
    destruct Hk0. change (In (fst (name t, t)) (List.map fst d)).
    now apply in_map.
Qed.

(** X19: the registry of a client built by the constructor and by
    registrations has one entry per name, each under the name of the tool
    it holds, so every tool in it is found under its own name. *)
Theorem registry_invariant (m : string) (temp : float)
        (given : option (list Tool)) (ts : list Tool) :
  let client := fold_left register_tool ts (LLM_init m temp given) in
  registry_ok (tools client) /\
  forall t, In t (PyDict.values (tools client)) ->
            PyDict.get (name t) (tools client) = Some t.
Proof.
  intros client.
  assert (Hok : registry_ok (tools client)).
  { subst client. rewrite tools_after_registrations. apply registry_ok_fold.
    simpl. unfold PyDict.comprehension. apply registry_ok_fold.
    split; constructor. }
  split; [exact Hok|].
  intros t Ht. unfold PyDict.values in Ht.
  apply in_map_iff in Ht as ([k t'] & Heq & Hin). simpl in Heq. subst t'.
  now destruct (@registry_ok_lookup (tools client) k t Hok Hin) as [_ H].
Qed.

Lemma registry_invariant_witness :
  PyDict.get "search"
    (tools (fold_left register_tool [search_v2] 
              (LLM_init "gpt-4o-mini" 0%float (Some [search_v1; fetch_tool]))))
  = Some search_v2.
Proof.
  apply (proj2 (registry_invariant "gpt-4o-mini" 0%float
                  (Some [search_v1; fetch_tool]) [search_v2]) search_v2).
  simpl. now left.
Defined.

(** X20: after a registration the tool is found under its name, every
    other name maps to what it mapped to before, and the model and the
    temperature are as before. *)
Theorem register_then_lookup (self : LLM) (t : Tool) :
  PyDict.get (name t) (tools (register_tool self t)) = Some t /\
  (forall k, k <> name t ->
     PyDict.get k (tools (register_tool self t)) = PyDict.get k (tools self)) /\
  model (register_tool self t) = model self /\
  temperature (register_tool self t) = temperature self.
Proof.
  simpl. repeat split.
  - apply get_set_same.
  - intros k Hk. now apply get_set_other.
Qed.

Lemma register_then_lookup_witness :
  PyDict.get "fetch" (tools (register_tool (register_tool fresh_llm fetch_tool) search_v1))
  = Some fetch_tool.
Proof.
  rewrite (proj1 (proj2 (register_then_lookup
                           (register_tool fresh_llm fetch_tool) search_v1)))
    by discriminate.
  exact (proj1 (register_then_lookup fresh_llm fetch_tool)).
Defined.

(** X21: registering a tool under a name that is not in the registry
    adds it after the tools already there; registering under a name that
    is in the registry leaves the names and their order as they are. *)
Theorem register_tool_keys (self : LLM) (t : Tool) :
  (PyDict.get (name t) (tools self) = None ->
   PyDict.keys (tools (register_tool self t))
   = PyDict.keys (tools self) ++ [name t]) /\
  (forall old, PyDict.get (name t) (tools self) = Some old ->
   PyDict.keys (tools (register_tool self t)) = PyDict.keys (tools self)).
Proof.
  simpl. split.
  - intros H. now rewrite (set_absent _ t _ H), keys_app.
  - intros old H. now rewrite (keys_set_present _ t _ H).
Qed.

Lemma register_tool_keys_witness :
  PyDict.keys (tools (register_tool fresh_llm fetch_tool)) = ["fetch"] /\
  PyDict.keys (tools (register_tool (register_tool
                 (register_tool fresh_llm search_v1) fetch_tool) search_v2))
  = ["search"; "fetch"].
Proof.
  split.
  - exact (proj1 (register_tool_keys fresh_llm fetch_tool) eq_refl).
  - exact (proj2 (register_tool_keys
                    (register_tool (register_tool fresh_llm search_v1) fetch_tool)
                    search_v2) search_v1 eq_refl).
Defined.

(** X22: with or without tools, the payload starts with [model],
    [temperature] and [messages], in this order, [messages] holding the
    dict of every message in the order given; [tools] and [tool_choice]
    come after them when they are there, and there is no other key. *)
Theorem build_payload_base (self : LLM) (messages : list Message) :
  let payload := _build_payload self messages in
  PyDict.get "model" payload = Some (VStr (model self)) /\
  PyDict.get "temperature" payload = Some (VFloat (temperature self)) /\
  PyDict.get "messages" payload
  = Some (VList (List.map (fun m => VDict (Message_dict m)) messages)) /\
  PyDict.keys payload
  = ["model"; "temperature"; "messages"]
    ++ match tools self with
       | [] => []
       | _ :: _ => ["tools"; "tool_choice"]
       end.
Proof.
  unfold _build_payload. destruct (tools self); repeat split.
Qed.

(** ** Conversion of the input and the round trip to the remote API *)

Section InvokeFacts.
Variable coerce_str : value -> option string.
Variable coerce_list : value -> option (list value).

(** X23: the conversion succeeds on text, on a message and on a list of
    messages (the empty list too) and on nothing else, and what it returns
    is read off the input: the one user message with the text, the one
    message, or the messages of the list as they stand. *)
Theorem convert_input_inv (i : input) :
  is_ok (_convert_input coerce_str coerce_list i) = accepted i /\
  forall ms, _convert_input coerce_str coerce_list i = Ok ms ->
    match i with
    | InStr s => ms = [UserMessage (Some s)]
    | InMessage m => ms = [m]
    | InList xs => xs = List.map InMessage ms
    | InOther _ => False
    end.
Proof.
  destruct i as [s|m|xs|tn]; simpl.
  - split; [reflexivity|]. intros ms H. now injection H as <-.
  - split; [reflexivity|]. intros ms H. now injection H as <-.
  - destruct (forallb is_message xs) eqn:E; split; try reflexivity.
    + intros ms H. injection H as <-. now apply all_messages_inv.
    + discriminate.
  - split; [reflexivity | discriminate].
Qed.

(** X24: for a text prompt the payload carries exactly one message, the
    dict with the text under [content] and ["user"] under [role]. *)
Theorem text_prompt_payload (self : LLM) (s : string) :
  exists messages,
    _convert_input coerce_str coerce_list (InStr s) = Ok messages /\
    PyDict.get "messages" (_build_payload self messages)
    = Some (VList [VDict [("content", VStr s); ("role", VStr "user")]]).
Proof.
  exists [UserMessage (Some s)]. split; [reflexivity|].
  unfold _build_payload. destruct (tools self); reflexivity.
Qed.

Variable create : PyDict.t value -> result ChatCompletion.

Lemma construct_AIMessage (message : ChatCompletionMessage) :
  construct coerce_str coerce_list AIMessage_cls
    [("content", opt_str (cm_content message));
     ("tool_calls", opt_list (cm_tool_calls message))]
  = Ok (AIMessage (cm_content message) (cm_tool_calls message)).
Proof. destruct message as [[c|] [tc|]]; reflexivity. Qed.

(** X25: on an input that is neither text, nor a message, nor a list of
    messages, [invoke] raises the ValueError of the conversion, whatever
    the remote API would answer. *)
Theorem invoke_invalid_input (self : LLM) (i : input) :
  accepted i = false ->
  invoke coerce_str coerce_list create self i
  = Raise (ValueError
             ("Invalid input type <class '" ++ type_name_of i ++ "'>.")%string).
Proof.
  intros H. unfold invoke. rewrite <- invalid_input_text.
  destruct i as [s|m|xs|tn]; simpl in H; try discriminate; simpl.
  - now rewrite H.
  - reflexivity.
Qed.

(** X26: on an accepted input, an exception of the remote API call is
    the exception of [invoke], and a reply without choices makes [invoke]
    raise IndexError. *)
Theorem invoke_upstream_failure (self : LLM) (i : input)
        (messages : list Message) :
  _convert_input coerce_str coerce_list i = Ok messages ->
  (forall e, create (_build_payload self messages) = Raise e ->
             invoke coerce_str coerce_list create self i = Raise e) /\
  (create (_build_payload self messages) = Ok {| choices := [] |} ->
   invoke coerce_str coerce_list create self i = Raise IndexError).
Proof.
  intros Hc. unfold invoke. rewrite Hc. simpl.
  split; [intros e H | intros H]; now rewrite H.
Qed.

(** X27: on an accepted input and a reply with at least one choice,
    [invoke] returns an assistant message with the content and the tool
    calls of the first choice; the other choices play no part. *)
Theorem invoke_first_choice (self : LLM) (i : input) (messages : list Message)
        (choice : Choice) (others : list Choice) :
  _convert_input coerce_str coerce_list i = Ok messages ->
  create (_build_payload self messages) = Ok {| choices := choice :: others |} ->
  invoke coerce_str coerce_list create self i
  = Ok (AIMessage (cm_content (choice_message choice))
                  (cm_tool_calls (choice_message choice))).
Proof.
  intros Hc Hr. unfold invoke. rewrite Hc. simpl. rewrite Hr. simpl.
  apply construct_AIMessage.
Qed.

End InvokeFacts.

Lemma convert_input_inv_witness :
  [InMessage (SystemMessage (Some "be brief")); InMessage (UserMessage (Some "hi"))]
  = List.map InMessage [SystemMessage (Some "be brief"); UserMessage (Some "hi")].
Proof.
  exact (proj2 (convert_input_inv refuse_str refuse_list
                  (InList [InMessage (SystemMessage (Some "be brief"));
                           InMessage (UserMessage (Some "hi"))]))
               [SystemMessage (Some "be brief"); UserMessage (Some "hi")] eq_refl).
Defined.

Lemma invoke_invalid_input_witness :
  invoke refuse_str refuse_list greeter fresh_llm (InOther "int")
  = Raise (ValueError "Invalid input type <class 'int'>.").
Proof.
  exact (invoke_invalid_input refuse_str refuse_list greeter fresh_llm
           (InOther "int") eq_refl).
Defined.

Lemma invoke_upstream_failure_witness :
  invoke refuse_str refuse_list mute fresh_llm (InStr "hi") = Raise IndexError.
Proof.
  exact (proj2 (@invoke_upstream_failure refuse_str refuse_list mute fresh_llm
                  (InStr "hi") [UserMessage (Some "hi")] eq_refl) eq_refl).
Defined.

Lemma invoke_first_choice_witness :
  invoke refuse_str refuse_list greeter fresh_llm (InStr "hi")
  = Ok (AIMessage (Some "Hello!") None).
Proof.
  exact (@invoke_first_choice refuse_str refuse_list greeter fresh_llm
           (InStr "hi") [UserMessage (Some "hi")]
           {| choice_message := greeting |} [] eq_refl eq_refl).
Defined.

(** ** Names, descriptions and empty calls *)

(** X28: a non-empty [name] or [description] argument is what the tool
    gets, whatever the callable is named or documented as, and the
    descriptor exports the tool's name and description as they are. *)
Theorem explicit_overrides (f : Callable) (name0 description0 : option string)
        (t : Tool) :
  Tool_init f name0 description0 = Ok t ->
  (truthy name0 = true -> name0 = Some (name t)) /\
  (truthy description0 = true -> description t = description0) /\
  path ["function"; "name"] (Tool_dict t) = Some (VStr (name t)) /\
  path ["function"; "description"] (Tool_dict t)
  = Some (opt_str (description t)).
Proof.
  intros H. apply Tool_init_ok in H as (sig & hints & _ & _ & Hn & Hd & _).
  repeat split.
  - intros Ht. rewrite Ht in Hn. injection Hn as <-.
    destruct name0; [reflexivity | discriminate].
  - intros Ht. now rewrite Ht in Hd.
Qed.

Lemma explicit_overrides_witness :
  description {| func := ping_fn; name := "probe"; description := Some "Ping a host.";
                 signature := signature ping_tool;
                 type_hints := []; parameters := parameters ping_tool |}
  = Some "Ping a host.".
Proof.
  exact (proj1 (proj2 (explicit_overrides ping_fn (Some "probe")
                         (Some "Ping a host.") eq_refl)) eq_refl).
Defined.

(** X29: a callable without a [__name__] can be wrapped under a non-empty
    [name] only: without one the attribute error of the lookup is raised,
    before the signature is looked at. *)
Theorem nameless_callable (f : Callable) (name0 description0 : option string)
        (e : exn) :
  fn_name f = Raise e ->
  truthy name0 = false ->
  Tool_init f name0 description0 = Raise e.
Proof.
  intros Hf Hn. unfold Tool_init. now rewrite Hn, Hf.
Qed.

Lemma nameless_callable_witness :
  Tool_init {| fn_truthy := true;
     fn_name := Raise (AttributeError "__name__");
               fn_doc := None;
               fn_signature := Raise (ValueError "no signature found");
               fn_type_hints := Ok [] |} (Some "") None
  = Raise (AttributeError "__name__").
Proof.
  exact (@nameless_callable
           {| fn_truthy := true;
     fn_name := Raise (AttributeError "__name__");
              fn_doc := None;
              fn_signature := Raise (ValueError "no signature found");
              fn_type_hints := Ok [] |} (Some "") None _ eq_refl eq_refl).
Defined.

(** X30: when the keyword arguments name no declared field of the class,
    every message class but [ToolMessage] builds its message with the
    empty text as content (and no tool calls for [AIMessage]);
    [ToolMessage] fails on its two fields without default, and on them
    only. *)
Theorem construct_defaults
        (coerce_str : value -> option string)
        (coerce_list : value -> option (list value))
        (cls : message_class) (data : PyDict.t value) :
  (forall k, In k (declared_fields cls) -> PyDict.get k data = None) ->
  construct coerce_str coerce_list cls data
  = match cls with
    | BaseMessage_cls => Ok (BaseMessage (Some ""))
    | SystemMessage_cls => Ok (SystemMessage (Some ""))
    | UserMessage_cls => Ok (UserMessage (Some ""))
    | AIMessage_cls => Ok (AIMessage (Some "") None)
    | ToolMessage_cls => Raise (ValidationError ["tool_call_id"; "name"])
    end.
Proof.
  intros H. unfold construct, validate_content, validate_role, validate_str,
    validate_tool_calls.
  destruct cls; simpl in H; rewrite !H by auto 6; reflexivity.
Qed.

Lemma construct_defaults_witness :
  construct refuse_str refuse_list AIMessage_cls [("mood", VStr "glad")]
  = Ok (AIMessage (Some "") None).
Proof.
  apply (@construct_defaults refuse_str refuse_list AIMessage_cls
           [("mood", VStr "glad")]).
  intros k [<-|[<-|[<-|[]]]]; reflexivity.
Defined.

Lemma Tool_init_succeeds_iff_witness :
  is_ok (Tool_init lookup_fn None None) = true.
Proof.
  apply (proj2 (Tool_init_succeeds_iff lookup_fn None None)).
  split; [right; reflexivity|].
  eexists _, _. split; [reflexivity|]. split; [reflexivity|].
  intros p [<-|[<-|[<-|[]]]]; reflexivity.
Defined.
